(** * load_bearer: a shallow embedding of [load_bearer.c]

    The C program is a three-route HTTP server on top of libevent.  The
    embedding has three layers:

    - [C]: the C integer type [int] (32 bits, wrap-around written out)
      and the libc functions the program calls ([strncmp], [atoi],
      the [%d] conversion of [printf]);
    - [Query]: [requested_delay], the loop over the parsed query
      parameters;
    - [Server]: the handlers as programs in a small state/abort monad
      over a world holding the live evbuffers, the live [http_response]
      structs, the unanswered requests, the armed timers and the trace
      of library calls. *)

From Stdlib Require Import ZArith Lia List Bool.
From Stdlib Require Import Ascii String.
From stdpp Require Import gmap.

Local Open Scope Z_scope.

(* ===================================================================== *)
(** ** C integers and libc                                                *)
(* ===================================================================== *)

Module C.

Definition INT_MIN : Z := -2147483648.
Definition INT_MAX : Z := 2147483647.
Definition LONG_MIN : Z := -9223372036854775808.
Definition LONG_MAX : Z := 9223372036854775807.

(** Conversion to [int]: reduction modulo 2^32 into the signed range. *)
Definition to_int (z : Z) : Z := (z + 2147483648) mod 4294967296 - 2147483648.

(** [a * b] evaluated in type [int]. *)
Definition int_mul (a b : Z) : Z := to_int (a * b).

Definition in_int (z : Z) : Prop := INT_MIN <= z <= INT_MAX.

(** Characters as [unsigned char] codes; the end of a string reads as
    the terminating NUL. *)
Definition code (c : ascii) : Z := Z.of_N (N_of_ascii c).

Definition char_at_head (s : string) : Z :=
  match s with
  | EmptyString => 0
  | String c _ => code c
  end.

Definition tail (s : string) : string :=
  match s with
  | EmptyString => EmptyString
  | String _ s' => s'
  end.

(** [strncmp(s1, s2, n)]: compares at most [n] characters and stops at a
    NUL; the result is the difference of the first differing pair. *)
Fixpoint strncmp (s1 s2 : string) (n : nat) : Z :=
  match n with
  | O => 0
  | S n' =>
      let c1 := char_at_head s1 in
      let c2 := char_at_head s2 in
      if c1 =? c2
      then (if c1 =? 0 then 0 else strncmp (tail s1) (tail s2) n')
      else c1 - c2
  end.

(** [isspace] and [isdigit] in the "C" locale. *)
Definition isspace (c : ascii) : bool :=
  (code c =? 32) || ((9 <=? code c) && (code c <=? 13)).

Definition isdigit (c : ascii) : bool :=
  (48 <=? code c) && (code c <=? 57).

Definition digit_val (c : ascii) : Z := code c - 48.

Fixpoint skip_space (s : string) : string :=
  match s with
  | String c s' => if isspace c then skip_space s' else s
  | EmptyString => EmptyString
  end.

(** The digit loop of [strtol]: accumulates while digits follow. *)
Fixpoint strtol_digits (s : string) (acc : Z) : Z :=
  match s with
  | String c s' =>
      if isdigit c then strtol_digits s' (10 * acc + digit_val c) else acc
  | EmptyString => acc
  end.

Definition clamp_long (z : Z) : Z :=
  if z <? LONG_MIN then LONG_MIN
  else if LONG_MAX <? z then LONG_MAX
  else z.

(** [strtol(s, NULL, 10)]: white space, an optional sign, digits; a value
    outside [long] saturates. *)
Definition strtol (s : string) : Z :=
  match skip_space s with
  | String c r =>
      if Ascii.eqb c "-" then clamp_long (- strtol_digits r 0)
      else if Ascii.eqb c "+" then clamp_long (strtol_digits r 0)
      else clamp_long (strtol_digits (String c r) 0)
  | EmptyString => 0
  end.

(** [atoi(s)] is [(int) strtol(s, NULL, 10)]: a value outside [int] is
    reduced to it. *)
Definition atoi (s : string) : Z := to_int (strtol s).

(** The [%d] conversion: decimal digits, most significant first, a
    leading ['-'] for negative values. *)
Definition digit_char (d : Z) : ascii := ascii_of_N (Z.to_N (48 + d)).

Fixpoint utoa_loop (fuel : nat) (n : Z) (acc : string) : string :=
  match fuel with
  | O => acc
  | S fuel' =>
      let acc' := String (digit_char (n mod 10)) acc in
      if n / 10 =? 0 then acc' else utoa_loop fuel' (n / 10) acc'
  end.

Definition utoa (n : Z) : string :=
  utoa_loop (S (Z.to_nat (Z.log2 n))) n EmptyString.

Definition fmt_d (z : Z) : string :=
  if z <? 0 then String "-"%char (utoa (- z)) else utoa z.

(** [printf]-style formatting, for the conversions the program uses:
    [%d] consumes the next [int] argument, [%%] is a percent sign. *)
Fixpoint sprintf (fmt : string) (args : list Z) : string :=
  match fmt with
  | EmptyString => EmptyString
  | String "%"%char (String "d"%char rest) =>
      match args with
      | a :: args' => String.append (fmt_d a) (sprintf rest args')
      | [] => sprintf rest []
      end
  | String "%"%char (String "%"%char rest) =>
      String "%"%char (sprintf rest args)
  | String c rest => String c (sprintf rest args)
  end.

(** [strsep] with a single delimiter: the token before the first
    delimiter and, when there is one, the rest after it. *)
Fixpoint strsep (s : string) (delim : ascii) : string * option string :=
  match s with
  | EmptyString => (EmptyString, None)
  | String c s' =>
      if Ascii.eqb c delim then (EmptyString, Some s')
      else let '(tok, rest) := strsep s' delim in (String c tok, rest)
  end.

End C.

(* ===================================================================== *)
(** ** The query parser                                                   *)
(* ===================================================================== *)

(** [struct evkeyval]: one parsed query parameter. *)
Record evkeyval := { key : string; value : string }.

(** [struct evhttp_request], as far as the program looks at it: the
    identity of the request (its completion handle) and its URI.  The
    method is carried along although no handler reads it. *)
Record evhttp_request := {
  req_id : nat;
  req_method : string;
  req_uri : string
}.

Definition evhttp_request_uri (req : evhttp_request) : string := req_uri req.

Module Query.
Section WithParser.

(** libevent's [evhttp_parse_query], which fills the [evkeyvalq] in the
    order of the parameters in the URI. *)
Variable evhttp_parse_query : string -> list evkeyval.

(** The body of the [TAILQ_FOREACH] loop, threaded through [wait]. *)
Fixpoint foreach_param (params : list evkeyval) (wait : Z) : Z :=
  match params with
  | [] => wait
  | param :: rest =>
      foreach_param rest
        (if C.strncmp (key param) "delay" 5 =? 0
         then C.atoi (value param)
         else wait)
  end.

Definition requested_delay (req : evhttp_request) : Z :=
  let params := evhttp_parse_query (evhttp_request_uri req) in
  foreach_param params 0.

End WithParser.
End Query.

(** An instance of the parser for running the program on URIs without
    escapes: the query starts after the first ['?'], arguments are
    separated by ['&'], key and value by the first ['='], and parsing
    stops at an argument that has no ['=']. *)
Module PlainQuery.

Fixpoint arguments (fuel : nat) (p : string) : list evkeyval :=
  match fuel with
  | O => []
  | S fuel' =>
      match p with
      | EmptyString => []
      | _ =>
          let '(argument, p') := C.strsep p "&"%char in
          match C.strsep argument "="%char with
          | (_, None) => []
          | (k, Some v) =>
              {| key := k; value := v |} ::
              match p' with
              | None => []
              | Some rest => arguments fuel' rest
              end
          end
      end
  end.

Definition evhttp_parse_query (uri : string) : list evkeyval :=
  match C.strsep uri "?"%char with
  | (_, None) => []
  | (_, Some q) => arguments (S (String.length q)) q
  end.

End PlainQuery.

Definition GET (uri : string) (id : nat) : evhttp_request :=
  {| req_id := id; req_method := "GET"; req_uri := uri |}.

(** ** What the specification calls a valid base-10 integer prefix *)
Module IntPrefix.

Fixpoint take_digits (s : string) : list Z :=
  match s with
  | String c s' => if C.isdigit c then C.digit_val c :: take_digits s' else []
  | EmptyString => []
  end.

Definition decimal_value (ds : list Z) : Z :=
  fold_left (fun acc d => 10 * acc + d) ds 0.

(** White space, an optional sign, then at least one digit; the value is
    that of the longest run of digits. *)
Definition signed_digits (s : string) : Z * list Z :=
  match s with
  | String c r =>
      if Ascii.eqb c "-" then (-1, take_digits r)
      else if Ascii.eqb c "+" then (1, take_digits r)
      else (1, take_digits s)
  | EmptyString => (1, [])
  end.

Definition int_prefix (s : string) : option Z :=
  match signed_digits (C.skip_space s) with
  | (_, []) => None
  | (sgn, ds) => Some (sgn * decimal_value ds)
  end.

(** The weight of the digit in front of the digits of [acc]. *)
Definition pow_len (acc : string) : Z :=
  10 ^ Z.of_nat (List.length (take_digits acc)).

Fixpoint digits_only (s : string) : bool :=
  match s with
  | String c s' => C.isdigit c && digits_only s'
  | EmptyString => true
  end.

(** [s] is [z] written in decimal with no leading zeros: a ['-'] exactly
    when [z] is negative, then the digits of [|z|], the first of which is
    ['0'] only when it is the only one. *)
Definition decimal_of (z : Z) (s : string) : Prop :=
  exists ds : string,
    s = String.append (if z <? 0 then "-" else "") ds /\
    ds <> EmptyString /\
    digits_only ds = true /\
    decimal_value (take_digits ds) = Z.abs z /\
    (String.prefix "0" ds = true -> ds = "0"%string).

End IntPrefix.

(** A key the loop of [requested_delay] accepts. *)
Definition has_delay_prefix (k : string) : bool := String.prefix "delay" k.

(* ===================================================================== *)
(** ** The server                                                         *)
(* ===================================================================== *)

Module Server.

(** A pointer to an evbuffer or to an [http_response]: [NULL] is [None],
    otherwise the address. *)
Abbreviation ptr := (option nat).

(** [struct timeval]. *)
Record timeval := { tv_sec : Z; tv_usec : Z }.

(** The duration a [timeval] stands for, in microseconds. *)
Definition timeval_usec (tv : timeval) : Z := 1000000 * tv_sec tv + tv_usec tv.

(** [struct http_response]. *)
Record http_response := {
  req : option evhttp_request;
  buf : ptr
}.

(** The functions registered as event callbacks. *)
Inductive callback := Send_response_cb.

(** A timer armed by [event_once]. *)
Record timer := {
  timer_fd : Z;
  timer_events : Z;
  timer_cb : callback;
  timer_arg : ptr;
  timer_tv : timeval
}.

Definition EV_TIMEOUT : Z := 1.

(** The calls that leave the program, in the order they are made. *)
Inductive event :=
| E_evbuffer_new (result : ptr)
| E_evbuffer_add_printf (b : ptr) (text : string)
| E_evhttp_send_reply (r : evhttp_request) (code : Z) (reason : string)
                      (databuf : ptr) (body : string)
| E_evhttp_request_free (r : evhttp_request)
| E_evbuffer_free (b : ptr)
| E_malloc (result : ptr)
| E_free (p : ptr)
| E_event_once (t : timer)
| E_usleep (usec : Z) (result : Z)
| E_assert_fail (expr : string)
| E_evhttp_send_error (r : evhttp_request) (code : Z) (reason : string).

Record world := {
  evbuffers : gmap nat string;          (* live evbuffers, with contents *)
  responses : gmap nat http_response;   (* live http_response structs *)
  requests : gset nat;                  (* requests not yet answered or freed *)
  timers : list timer;                  (* armed one-shot timers *)
  trace : list event
}.

(** What the environment decides during one callback: whether the two
    allocations succeed and what [usleep] returns. *)
Record env := {
  evbuffer_new_ok : bool;
  malloc_ok : bool;
  usleep_result : Z
}.

(** A callback returns, or the process dies: [Abort] on a failed
    [assert], [Fault] when a pointer that is [NULL] or no longer live is
    dereferenced, by the program or inside a library function. *)
Inductive outcome (A : Type) :=
| Ret (a : A) (w : world)
| Abort (w : world)
| Fault (w : world).
Arguments Ret {A} a w.
Arguments Abort {A} w.
Arguments Fault {A} w.

Definition M (A : Type) : Type := env -> world -> outcome A.

Definition ret {A} (a : A) : M A := fun _ w => Ret a w.

Definition bind {A B} (m : M A) (k : A -> M B) : M B :=
  fun e w =>
    match m e w with
    | Ret a w' => k a e w'
    | Abort w' => Abort w'
    | Fault w' => Fault w'
    end.

Notation "x <- m ;; k" := (bind m (fun x => k))
  (at level 100, m at next level, right associativity).
Notation "m ;;; k" := (bind m (fun _ => k))
  (at level 100, right associativity).

Definition log (ev : event) (w : world) : world :=
  {| evbuffers := evbuffers w; responses := responses w;
     requests := requests w; timers := timers w;
     trace := trace w ++ [ev] |}.

Definition with_evbuffers (m : gmap nat string) (w : world) : world :=
  {| evbuffers := m; responses := responses w;
     requests := requests w; timers := timers w; trace := trace w |}.

Definition with_responses (m : gmap nat http_response) (w : world) : world :=
  {| evbuffers := evbuffers w; responses := m;
     requests := requests w; timers := timers w; trace := trace w |}.

Definition with_requests (s : gset nat) (w : world) : world :=
  {| evbuffers := evbuffers w; responses := responses w;
     requests := s; timers := timers w; trace := trace w |}.

Definition with_timers (ts : list timer) (w : world) : world :=
  {| evbuffers := evbuffers w; responses := responses w;
     requests := requests w; timers := ts; trace := trace w |}.

(** *** libevent and libc, as the program uses them *)

Definition evbuffer_new : M ptr :=
  fun e w =>
    if evbuffer_new_ok e then
      let b := fresh (dom (evbuffers w)) in
      Ret (Some b)
          (log (E_evbuffer_new (Some b))
               (with_evbuffers (<[b := EmptyString]> (evbuffers w)) w))
    else Ret None (log (E_evbuffer_new None) w).

Definition evbuffer_add_printf (b : ptr) (fmt : string) (args : list Z)
  : M unit :=
  fun _ w =>
    let text := C.sprintf fmt args in
    let w1 := log (E_evbuffer_add_printf b text) w in
    match b with
    | Some a =>
        match evbuffers w !! a with
        | Some old =>
            Ret tt (with_evbuffers
                      (<[a := String.append old text]> (evbuffers w)) w1)
        | None => Fault w1
        end
    | None => Fault w1
    end.

(** The contents of an evbuffer handed to a library function; a pointer
    that is not live has none. *)
Definition contents (b : nat) (w : world) : option string := evbuffers w !! b.

(** [evhttp_send_reply] moves the contents of [databuf], if there is
    one, into the reply and, once the reply is written, frees the
    request. *)
Definition evhttp_send_reply (r : option evhttp_request) (code : Z)
    (reason : string) (databuf : ptr) : M unit :=
  fun _ w =>
    match r with
    | Some q =>
        if decide (req_id q ∈ requests w) then
          match databuf with
          | Some b =>
              match contents b w with
              | Some body =>
                  Ret tt
                    (log (E_evhttp_send_reply q code reason databuf body)
                       (with_requests (requests w ∖ {[req_id q]})
                          (with_evbuffers
                             (<[b := EmptyString]> (evbuffers w)) w)))
              | None => Fault w
              end
          | None =>
              Ret tt
                (log (E_evhttp_send_reply q code reason None EmptyString)
                   (with_requests (requests w ∖ {[req_id q]}) w))
          end
        else Fault w
    | None => Fault w
    end.

Definition evhttp_request_free (q : evhttp_request) : M unit :=
  fun _ w =>
    let w1 := log (E_evhttp_request_free q) w in
    if decide (req_id q ∈ requests w) then
      Ret tt (with_requests (requests w ∖ {[req_id q]}) w1)
    else Fault w1.

Definition evbuffer_free (b : ptr) : M unit :=
  fun _ w =>
    let w1 := log (E_evbuffer_free b) w in
    match b with
    | Some a =>
        match evbuffers w !! a with
        | Some _ => Ret tt (with_evbuffers (delete a (evbuffers w)) w1)
        | None => Fault w1
        end
    | None => Fault w1
    end.

(** [malloc(sizeof(struct http_response))]; the fields of the new struct
    are indeterminate until assigned and are held as [NULL] here. *)
Definition malloc : M ptr :=
  fun e w =>
    if malloc_ok e then
      let p := fresh (dom (responses w)) in
      Ret (Some p)
          (log (E_malloc (Some p))
               (with_responses
                  (<[p := {| req := None; buf := None |}]> (responses w)) w))
    else Ret None (log (E_malloc None) w).

Definition free (p : ptr) : M unit :=
  fun _ w =>
    let w1 := log (E_free p) w in
    match p with
    | Some a =>
        match responses w !! a with
        | Some _ => Ret tt (with_responses (delete a (responses w)) w1)
        | None => Fault w1
        end
    | None => Ret tt w1
    end.

(** Reading and writing a struct through a pointer. *)
Definition load (p : ptr) : M http_response :=
  fun _ w =>
    match p with
    | Some a =>
        match responses w !! a with
        | Some r => Ret r w
        | None => Fault w
        end
    | None => Fault w
    end.

Definition store (p : ptr) (r : http_response) : M unit :=
  fun _ w =>
    match p with
    | Some a =>
        match responses w !! a with
        | Some _ => Ret tt (with_responses (<[a := r]> (responses w)) w)
        | None => Fault w
        end
    | None => Fault w
    end.

Definition assert (b : bool) (expr : string) : M unit :=
  fun _ w => if b then Ret tt w else Abort (log (E_assert_fail expr) w).

(** [event_once] arms the timer; the program ignores its result. *)
Definition event_once (fd events : Z) (cb : callback) (arg : ptr)
    (tv : timeval) : M unit :=
  fun _ w =>
    let t := {| timer_fd := fd; timer_events := events; timer_cb := cb;
                timer_arg := arg; timer_tv := tv |} in
    Ret tt (log (E_event_once t) (with_timers (timers w ++ [t]) w)).

(** [usleep] is called without a prototype in scope, so it receives the
    [int] the program computed. *)
Definition usleep (usec : Z) : M Z :=
  fun e w => Ret (usleep_result e) (log (E_usleep usec (usleep_result e)) w).

(** What evhttp does with a request no callback is registered for. *)
Definition evhttp_send_error (q : evhttp_request) (code : Z) (reason : string)
  : M unit :=
  fun _ w =>
    if decide (req_id q ∈ requests w) then
      Ret tt (log (E_evhttp_send_error q code reason)
                (with_requests (requests w ∖ {[req_id q]}) w))
    else Fault w.

(** *** The program *)

Section Program.

Variable evhttp_parse_query : string -> list evkeyval.

Definition requested_delay : evhttp_request -> Z :=
  Query.requested_delay evhttp_parse_query.

Definition null_response_cb (r : evhttp_request) : M unit :=
  buf <- evbuffer_new ;;
  evbuffer_add_printf buf "OK" [] ;;;
  evhttp_send_reply (Some r) 200 "OK" buf ;;;
  evbuffer_free buf.

Definition http_response_new (r : option evhttp_request) (b : ptr) : M ptr :=
  resp <- malloc ;;
  assert (bool_decide (is_Some resp)) "resp" ;;;
  store resp {| req := r; buf := b |} ;;;
  ret resp.

Definition http_response_free (ptr : ptr) : M unit :=
  r <- load ptr ;;
  match req r with
  | Some q => evhttp_request_free q
  | None => ret tt
  end ;;;
  match buf r with
  | Some b => evbuffer_free (Some b)
  | None => ret tt
  end ;;;
  free ptr.

Definition send_response_cb (fd type : Z) (args : ptr) : M unit :=
  resp <- load args ;;
  evhttp_send_reply (req resp) 200 "OK" (buf resp) ;;;
  store args {| req := None; buf := buf resp |} ;;;
  http_response_free args.

Definition delayed_response_cb (r : evhttp_request) : M unit :=
  let wait := requested_delay r in
  let delay := {| tv_sec := 0; tv_usec := C.int_mul 1000 wait |} in
  buf <- evbuffer_new ;;
  evbuffer_add_printf buf "Waited %d ms" [wait] ;;;
  resp <- http_response_new (Some r) buf ;;
  event_once (-1) EV_TIMEOUT Send_response_cb resp delay.

Definition blocking_response_cb (r : evhttp_request) : M unit :=
  let wait := requested_delay r in
  buf <- evbuffer_new ;;
  evbuffer_add_printf buf "Waited %d ms" [wait] ;;;
  resp <- http_response_new (Some r) buf ;;
  slept <- usleep (C.int_mul wait 1000) ;;
  assert (slept =? 0) "usleep(wait*1000)==0" ;;;
  send_response_cb (-1) EV_TIMEOUT resp.

(** *** The reactor, as far as the program relies on it *)

Definition run_callback (cb : callback) (fd events : Z) (arg : ptr) : M unit :=
  match cb with
  | Send_response_cb => send_response_cb fd events arg
  end.

(** A timer that expires is removed and its callback is called with the
    arguments given to [event_once]. *)
Definition fire_timer (t : timer) : M unit :=
  fun e w =>
    run_callback (timer_cb t) (timer_fd t) EV_TIMEOUT (timer_arg t) e w.

(** The [i]-th armed timer expires. *)
Definition timeout_process (i : nat) : M unit :=
  fun e w =>
    match timers w !! i with
    | Some t => fire_timer t e (with_timers (delete i (timers w)) w)
    | None => Ret tt w
    end.

Inductive handler :=
| Null_response_cb | Delayed_response_cb | Blocking_response_cb.

Definition NULL_RESP_PATH : string := "/".
Definition DELAYED_RESP_PATH : string := "/delay".
Definition BLOCKING_RESP_PATH : string := "/block".

(** The table [main] builds with [evhttp_set_cb]. *)
Definition main_callbacks : list (string * handler) :=
  [ (NULL_RESP_PATH, Null_response_cb);
    (DELAYED_RESP_PATH, Delayed_response_cb);
    (BLOCKING_RESP_PATH, Blocking_response_cb) ].

Definition run_handler (h : handler) : evhttp_request -> M unit :=
  match h with
  | Null_response_cb => null_response_cb
  | Delayed_response_cb => delayed_response_cb
  | Blocking_response_cb => blocking_response_cb
  end.

(** A request is served: its callback runs and then the timer the
    callback armed, if it armed one, expires. *)
Definition serve (h : handler) (r : evhttp_request) : M unit :=
  fun e w =>
    (run_handler h r ;;; timeout_process (List.length (timers w))) e w.

(** evhttp picks the callback by the part of the URI before the query. *)
Definition request_path (r : evhttp_request) : string :=
  fst (C.strsep (evhttp_request_uri r) "?").

Fixpoint find_callback (path : string) (cbs : list (string * handler))
  : option handler :=
  match cbs with
  | [] => None
  | (what, h) :: cbs' =>
      if String.eqb what path then Some h else find_callback path cbs'
  end.

Definition serve_request (r : evhttp_request) : M unit :=
  match find_callback (request_path r) main_callbacks with
  | Some h => serve h r
  | None => evhttp_send_error r 404 "Not Found"
  end.

(** The text both delayed callbacks print into the evbuffer. *)
Definition waited (r : evhttp_request) : string :=
  C.sprintf "Waited %d ms" [requested_delay r].

(** The timer [delayed_response_cb] arms in world [w]. *)
Definition delay_timer (r : evhttp_request) (w : world) : timer :=
  {| timer_fd := -1; timer_events := EV_TIMEOUT; timer_cb := Send_response_cb;
     timer_arg := Some (fresh (dom (responses w)));
     timer_tv := {| tv_sec := 0;
                    tv_usec := C.int_mul 1000 (requested_delay r) |} |}.

(** What serving a request with callback [h] looks like from outside,
    for a body buffer at [b] and a holder at [p]: the text printed into
    the buffer, the calls before the reply and the calls after it. *)
Definition reply_text (h : handler) (r : evhttp_request) : string :=
  match h with
  | Null_response_cb => "OK"
  | _ => waited r
  end.

Definition events_before_reply (h : handler) (r : evhttp_request)
    (w : world) (b p : nat) : list event :=
  [E_evbuffer_new (Some b); E_evbuffer_add_printf (Some b) (reply_text h r)] ++
  match h with
  | Null_response_cb => []
  | Delayed_response_cb =>
      [E_malloc (Some p); E_event_once (delay_timer r w)]
  | Blocking_response_cb =>
      [E_malloc (Some p); E_usleep (C.int_mul (requested_delay r) 1000) 0]
  end.

Definition events_after_reply (h : handler) (b p : nat) : list event :=
  E_evbuffer_free (Some b) ::
  match h with
  | Null_response_cb => []
  | _ => [E_free (Some p)]
  end.

(** Several requests served one after the other. *)
Fixpoint serve_all (rs : list evhttp_request) : M unit :=
  match rs with
  | [] => ret tt
  | r :: rs' => serve_request r ;;; serve_all rs'
  end.

End Program.

(** *** Observations on outcomes and traces *)

Definition world_of {A} (o : outcome A) : world :=
  match o with
  | Ret _ w => w
  | Abort w => w
  | Fault w => w
  end.

Definition returns {A} (o : outcome A) : bool :=
  match o with
  | Ret _ _ => true
  | _ => false
  end.

Definition aborts {A} (o : outcome A) : bool :=
  match o with
  | Abort _ => true
  | _ => false
  end.

(** The events a run adds to the trace of the world it starts in. *)
Definition new_events (w w' : world) : list event :=
  drop (List.length (trace w)) (trace w').

Definition is_send_reply (ev : event) : bool :=
  match ev with
  | E_evhttp_send_reply _ _ _ _ _ => true
  | _ => false
  end.

Definition is_request_free (ev : event) : bool :=
  match ev with
  | E_evhttp_request_free _ => true
  | _ => false
  end.

Definition is_event_once (ev : event) : bool :=
  match ev with
  | E_event_once _ => true
  | _ => false
  end.

Definition count (f : event -> bool) (evs : list event) : nat :=
  List.length (List.filter f evs).

(** The replies in a trace: request, status, body. *)
Fixpoint replies (evs : list event) : list (evhttp_request * Z * string) :=
  match evs with
  | [] => []
  | E_evhttp_send_reply r code _ _ body :: evs' => (r, code, body) :: replies evs'
  | _ :: evs' => replies evs'
  end.

(** The durations of the armed timers, in microseconds. *)
Definition armed_usec (w : world) : list Z :=
  List.map (fun t => timeval_usec (timer_tv t)) (timers w).

(** An idle server to which the requests [ids] have just arrived, and an
    environment in which nothing fails. *)
Definition idle_world (ids : list nat) : world :=
  {| evbuffers := ∅; responses := ∅; requests := list_to_set ids;
     timers := []; trace := [] |}.

Definition env_ok : env :=
  {| evbuffer_new_ok := true; malloc_ok := true; usleep_result := 0 |}.

(** Nothing owned by requests is left over when [w'] is compared with
    [w]: the same evbuffers, structs and timers. *)
Definition same_resources (w w' : world) : Prop :=
  evbuffers w' = evbuffers w /\
  responses w' = responses w /\
  timers w' = timers w.

End Server.

(* ===================================================================== *)
(** ** Facts about the C layer                                            *)
(* ===================================================================== *)

Module CFacts.
Import C IntPrefix.

Lemma to_int_in_int z : in_int (to_int z).
Proof.
  unfold in_int, to_int, INT_MIN, INT_MAX.
  pose proof (Z.mod_pos_bound (z + 2147483648) 4294967296 ltac:(lia)). lia.
Qed.

Lemma to_int_id z : in_int z -> to_int z = z.
Proof.
  unfold in_int, to_int, INT_MIN, INT_MAX. intros H.
  rewrite Z.mod_small by lia. lia.
Qed.

Lemma int_mul_exact a b : in_int (a * b) -> int_mul a b = a * b.
Proof. apply to_int_id. Qed.

Lemma atoi_in_int s : in_int (atoi s).
Proof. apply to_int_in_int. Qed.

Lemma code_range c : 0 <= code c < 256.
Proof.
  unfold code. destruct c as [[] [] [] [] [] [] [] []]; vm_compute; split; congruence.
Qed.

Lemma code_inj c1 c2 : code c1 = code c2 -> c1 = c2.
Proof.
  unfold code. intros H. apply N2Z.inj in H.
  rewrite <- (ascii_N_embedding c1), <- (ascii_N_embedding c2). now rewrite H.
Qed.

(** [strncmp] over the whole length of a NUL-free pattern is a prefix test. *)
Lemma strncmp_prefix (p : string) :
  (forall c, In c (list_ascii_of_string p) -> code c <> 0) ->
  forall k, strncmp k p (String.length p) = 0 <-> String.prefix p k = true.
Proof.
  induction p as [|a p IH]; intros Hnz k.
  - destruct k; simpl; tauto.
  - assert (Ha : code a <> 0) by (apply Hnz; simpl; auto).
    assert (Hp : forall c, In c (list_ascii_of_string p) -> code c <> 0)
      by (intros c Hc; apply Hnz; simpl; auto).
    destruct k as [|b k]; cbn [String.length strncmp char_at_head tail String.prefix].
    + destruct (Z.eqb_spec 0 (code a)) as [E|E]; [congruence|].
      split; [lia | discriminate].
    + destruct (Z.eqb_spec (code b) (code a)) as [E|E].
      * apply code_inj in E. subst b.
        destruct (Z.eqb_spec (code a) 0) as [E0|E0]; [congruence|].
        destruct (ascii_dec a a) as [_|N]; [apply IH, Hp | congruence].
      * destruct (ascii_dec a b) as [->|N]; [congruence|].
        split; [lia | discriminate].
Qed.

Lemma strncmp_delay k :
  (strncmp k "delay" 5 =? 0) = has_delay_prefix k.
Proof.
  unfold has_delay_prefix.
  pose proof (strncmp_prefix "delay") as H. cbn [String.length] in H.
  assert (Hnz : forall c, In c (list_ascii_of_string "delay") -> code c <> 0).
  { simpl. intros c [<-|[<-|[<-|[<-|[<-|[]]]]]]; vm_compute; congruence. }
  specialize (H Hnz k).
  destruct (Z.eqb_spec (strncmp k "delay" 5) 0) as [E|E];
    destruct (String.prefix "delay" k); try reflexivity.
  - apply H in E. discriminate.
  - exfalso. apply E, H. reflexivity.
Qed.

Lemma has_delay_prefix_split k :
  has_delay_prefix k = true <-> exists rest, k = String.append "delay" rest.
Proof.
  unfold has_delay_prefix. split.
  - intros H.
    do 5 (destruct k as [|? k]; [discriminate|];
          cbn [String.prefix] in H;
          match type of H with context [ascii_dec ?a ?b] =>
            destruct (ascii_dec a b) as [<-|]; [|discriminate] end).
    exists k. reflexivity.
  - intros [rest ->]. cbn.
    repeat (match goal with |- context [ascii_dec ?a ?a] =>
              destruct (ascii_dec a a); [|congruence] end).
    destruct rest; reflexivity.
Qed.

(** *** [atoi] against the integer prefix *)

Lemma strtol_digits_fold s acc :
  strtol_digits s acc =
  fold_left (fun a d => 10 * a + d) (take_digits s) acc.
Proof.
  revert acc. induction s as [|c s IH]; intros acc; simpl; [reflexivity|].
  destruct (isdigit c); simpl; [apply IH | reflexivity].
Qed.

Lemma strtol_digits_value s : strtol_digits s 0 = decimal_value (take_digits s).
Proof. apply strtol_digits_fold. Qed.

Lemma clamp_long_id z : LONG_MIN <= z <= LONG_MAX -> clamp_long z = z.
Proof.
  unfold clamp_long. intros H.
  destruct (Z.ltb_spec z LONG_MIN); [lia|].
  destruct (Z.ltb_spec LONG_MAX z); [lia|]. reflexivity.
Qed.

Lemma strtol_int_prefix s :
  strtol s =
  match int_prefix s with
  | None => 0
  | Some z => clamp_long z
  end.
Proof.
  unfold strtol, int_prefix, signed_digits.
  destruct (skip_space s) as [|c r]; [reflexivity|].
  destruct (Ascii.eqb c "-"); [|destruct (Ascii.eqb c "+")];
    rewrite strtol_digits_value.
  - destruct (take_digits r) as [|d ds] eqn:E; [reflexivity|]. f_equal; lia.
  - destruct (take_digits r) as [|d ds] eqn:E; [reflexivity|]. f_equal; lia.
  - destruct (take_digits (String c r)) as [|d ds] eqn:E; [reflexivity|].
    f_equal; lia.
Qed.

Lemma atoi_int_prefix s :
  atoi s =
  match int_prefix s with
  | None => 0
  | Some z => to_int (clamp_long z)
  end.
Proof.
  unfold atoi. rewrite strtol_int_prefix.
  destruct (int_prefix s); reflexivity.
Qed.

Lemma atoi_no_prefix s : int_prefix s = None -> atoi s = 0.
Proof. intros H. rewrite atoi_int_prefix, H. reflexivity. Qed.

Lemma atoi_prefix_value s z :
  int_prefix s = Some z -> in_int z -> atoi s = z.
Proof.
  intros H Hz. rewrite atoi_int_prefix, H.
  rewrite clamp_long_id by (unfold in_int, INT_MIN, INT_MAX, LONG_MIN, LONG_MAX in *; lia).
  now apply to_int_id.
Qed.

End CFacts.

(** ** Facts about the [%d] conversion *)

Module FmtFacts.
Import C IntPrefix CFacts.

Lemma digit_char_facts d :
  0 <= d <= 9 ->
  isdigit (digit_char d) = true /\ digit_val (digit_char d) = d /\
  isspace (digit_char d) = false /\
  Ascii.eqb (digit_char d) "-" = false /\
  Ascii.eqb (digit_char d) "+" = false /\
  (digit_char d = "0"%char -> d = 0).
Proof.
  intros H.
  assert (E : d = 0 \/ d = 1 \/ d = 2 \/ d = 3 \/ d = 4 \/
              d = 5 \/ d = 6 \/ d = 7 \/ d = 8 \/ d = 9) by lia.
  repeat (destruct E as [-> | E]); try subst d;
    (repeat split; try reflexivity; intros ?; try reflexivity; discriminate).
Qed.

Lemma fold_digits_shift ds a :
  fold_left (fun x d => 10 * x + d) ds a =
  a * 10 ^ Z.of_nat (List.length ds) + fold_left (fun x d => 10 * x + d) ds 0.
Proof.
  revert a. induction ds as [|d ds IH]; intros a.
  - simpl. lia.
  - cbn [fold_left List.length]. rewrite IH. rewrite (IH (10 * 0 + d)).
    rewrite Nat2Z.inj_succ, Z.pow_succ_r by lia. lia.
Qed.

Lemma take_digits_cons_digit d s :
  0 <= d <= 9 ->
  take_digits (String (digit_char d) s) = d :: take_digits s.
Proof.
  intros H. destruct (digit_char_facts d H) as (Hd & Hv & _).
  simpl. now rewrite Hd, Hv.
Qed.

(** The conversion loop: with enough fuel the result is the digits of [n]
    in front of [acc]. *)
Lemma utoa_loop_spec fuel : forall n acc,
  0 <= n < 2 ^ Z.of_nat fuel -> (0 < fuel)%nat ->
  let r := utoa_loop fuel n acc in
  decimal_value (take_digits r) =
    n * pow_len acc + decimal_value (take_digits acc) /\
  (digits_only acc = true -> digits_only r = true) /\
  (exists x tl, r = String (digit_char x) tl /\ 0 <= x <= 9 /\ (0 < n -> 0 < x)) /\
  (n = 0 -> r = String "0" acc).
Proof.
  induction fuel as [|fuel IH]; intros n acc Hn Hf; [lia|].
  cbn [utoa_loop]. cbv zeta.
  pose proof (Z.mod_pos_bound n 10 ltac:(lia)) as Hm.
  pose proof (Z.div_mod n 10 ltac:(lia)) as Hdm.
  assert (Hd : 0 <= n mod 10 <= 9) by lia.
  destruct (digit_char_facts _ Hd) as (Hdig & Hval & _).
  destruct (Z.eqb_spec (n / 10) 0) as [E|E].
  - assert (n = n mod 10) by lia.
    repeat split.
    + rewrite take_digits_cons_digit by lia. unfold decimal_value, pow_len.
      cbn [fold_left]. rewrite fold_digits_shift. lia.
    + intros Ha. cbn [digits_only]. now rewrite Hdig, Ha.
    + exists (n mod 10), acc. repeat split; lia.
    + intros ->. reflexivity.
  - assert (Hq : 0 < n / 10) by (pose proof (Z.div_pos n 10); lia).
    assert (Hlt : n / 10 < 2 ^ Z.of_nat fuel).
    { rewrite Nat2Z.inj_succ, Z.pow_succ_r in Hn by lia.
      apply Z.div_lt_upper_bound; lia. }
    assert (Hfuel : (0 < fuel)%nat).
    { destruct fuel; [simpl in Hlt; lia | lia]. }
    specialize (IH (n / 10) (String (digit_char (n mod 10)) acc)
                   (conj (Z.lt_le_incl _ _ Hq) Hlt) Hfuel).
    cbv zeta in IH. destruct IH as (Hv & Ho & (x & tl & Hr & Hx & Hpos) & _).
    repeat split.
    + rewrite Hv. unfold pow_len.
      rewrite take_digits_cons_digit by lia. unfold decimal_value.
      cbn [fold_left List.length].
      rewrite (fold_digits_shift _ (10 * 0 + n mod 10)).
      rewrite Nat2Z.inj_succ, Z.pow_succ_r by lia. lia.
    + intros Ha. apply Ho. cbn [digits_only]. now rewrite Hdig, Ha.
    + exists x, tl. repeat split; try lia. exact Hr.
    + intros ->. simpl in E. lia.
Qed.

Lemma utoa_spec n :
  0 <= n ->
  decimal_value (take_digits (utoa n)) = n /\
  digits_only (utoa n) = true /\
  (exists x tl, utoa n = String (digit_char x) tl /\ 0 <= x <= 9 /\ (0 < n -> 0 < x)) /\
  (n = 0 -> utoa n = "0"%string).
Proof.
  intros Hn. unfold utoa.
  assert (Hb : 0 <= n < 2 ^ Z.of_nat (S (Z.to_nat (Z.log2 n)))).
  { split; [lia|]. rewrite Nat2Z.inj_succ, Z2Nat.id by apply Z.log2_nonneg.
    destruct (Z.eq_dec n 0) as [->|]; [reflexivity|].
    apply Z.log2_spec. lia. }
  destruct (utoa_loop_spec _ n EmptyString Hb ltac:(lia)) as (Hv & Ho & Hh & Hz).
  repeat split; auto.
  rewrite Hv. unfold pow_len. simpl. unfold decimal_value. simpl. lia.
Qed.

(** [%d] writes its argument in decimal with no leading zeros. *)
Lemma fmt_d_decimal z : decimal_of z (fmt_d z).
Proof.
  unfold decimal_of, fmt_d.
  destruct (Z.ltb_spec z 0) as [Hz|Hz].
  - destruct (utoa_spec (- z) ltac:(lia)) as (Hv & Ho & (x & tl & Hr & Hx & Hpos) & _).
    exists (utoa (- z)). repeat split; auto.
    + rewrite Hr. discriminate.
    + rewrite Hv. lia.
    + rewrite Hr. cbn [String.prefix].
      destruct (ascii_dec "0" (digit_char x)) as [E|E]; [|discriminate].
      symmetry in E. apply (digit_char_facts x Hx) in E. lia.
  - destruct (utoa_spec z Hz) as (Hv & Ho & (x & tl & Hr & Hx & Hpos) & H0).
    exists (utoa z). repeat split; auto.
    + rewrite Hr. discriminate.
    + rewrite Hv. lia.
    + rewrite Hr. cbn [String.prefix].
      destruct (ascii_dec "0" (digit_char x)) as [E|E]; [|discriminate].
      symmetry in E. apply (digit_char_facts x Hx) in E.
      intros _. rewrite <- Hr. apply H0. lia.
Qed.

Lemma strtol_utoa n : 0 <= n <= LONG_MAX -> strtol (utoa n) = n.
Proof.
  intros Hn. destruct (utoa_spec n ltac:(lia)) as (Hv & _ & (x & tl & Hr & Hx & _) & _).
  unfold strtol. rewrite Hr.
  destruct (digit_char_facts x Hx) as (_ & _ & Hsp & Hm & Hp & _).
  cbn [skip_space]. rewrite Hsp, Hm, Hp. rewrite <- Hr.
  rewrite strtol_digits_value, Hv.
  apply clamp_long_id. unfold LONG_MIN, LONG_MAX in *. lia.
Qed.

(** Reading back what [%d] wrote gives the [int] that was written. *)
Lemma atoi_fmt_d z : in_int z -> atoi (fmt_d z) = z.
Proof.
  intros Hz. unfold atoi, fmt_d. unfold in_int, INT_MIN, INT_MAX in Hz.
  destruct (Z.ltb_spec z 0) as [Hn|Hn].
  - unfold strtol. cbn [skip_space]. change (isspace "-") with false. cbv iota.
    change (Ascii.eqb "-" "-") with true. cbv iota.
    destruct (utoa_spec (- z) ltac:(lia)) as (Hv & _).
    rewrite strtol_digits_value, Hv, Z.opp_involutive.
    rewrite clamp_long_id by (unfold LONG_MIN, LONG_MAX; lia).
    apply to_int_id. unfold in_int, INT_MIN, INT_MAX. lia.
  - rewrite strtol_utoa by (unfold LONG_MAX; lia).
    apply to_int_id. unfold in_int, INT_MIN, INT_MAX. lia.
Qed.

Lemma sprintf_waited wait :
  sprintf "Waited %d ms" [wait] =
  String.append "Waited " (String.append (fmt_d wait) " ms").
Proof. reflexivity. Qed.

End FmtFacts.

(* ===================================================================== *)
(** ** The query parser: which parameter decides the result               *)
(* ===================================================================== *)

Module QueryFacts.
Import C IntPrefix CFacts Query.

Lemma foreach_param_cons p rest w :
  foreach_param (p :: rest) w =
  foreach_param rest
    (if has_delay_prefix (key p) then atoi (value p) else w).
Proof. cbn [foreach_param]. now rewrite strncmp_delay. Qed.

Lemma foreach_param_app l1 l2 w :
  foreach_param (l1 ++ l2) w = foreach_param l2 (foreach_param l1 w).
Proof.
  revert w. induction l1 as [|p l1 IH]; intros w; [reflexivity|].
  cbn [foreach_param app]. apply IH.
Qed.

(** Parameters the loop does not accept leave [wait] alone. *)
Lemma foreach_param_skip l w :
  (forall q, In q l -> has_delay_prefix (key q) = false) ->
  foreach_param l w = w.
Proof.
  revert w. induction l as [|p l IH]; intros w H; [reflexivity|].
  rewrite foreach_param_cons, (H p) by (left; reflexivity).
  apply IH. intros q Hq. apply H. now right.
Qed.

(** The last accepted parameter decides. *)
Lemma foreach_param_last l1 p l2 w :
  has_delay_prefix (key p) = true ->
  (forall q, In q l2 -> has_delay_prefix (key q) = false) ->
  foreach_param (l1 ++ p :: l2) w = atoi (value p).
Proof.
  intros Hp Hl2.
  rewrite foreach_param_app, foreach_param_cons, Hp.
  now apply foreach_param_skip.
Qed.

Lemma foreach_param_in_int l w : in_int w -> in_int (foreach_param l w).
Proof.
  revert w. induction l as [|p l IH]; intros w Hw; [exact Hw|].
  rewrite foreach_param_cons. apply IH.
  destruct (has_delay_prefix (key p)); [apply atoi_in_int | exact Hw].
Qed.

Lemma requested_delay_in_int parse r : in_int (requested_delay parse r).
Proof.
  apply foreach_param_in_int. unfold in_int, INT_MIN, INT_MAX. lia.
Qed.

(** Any key that starts with the five characters is accepted, whatever
    follows them. *)
Lemma longer_key_accepted rest v w :
  foreach_param [{| key := String.append "delay" rest; value := v |}] w = atoi v.
Proof.
  rewrite foreach_param_cons. cbn [key value foreach_param].
  replace (has_delay_prefix (String.append "delay" rest)) with true; [reflexivity|].
  symmetry. apply has_delay_prefix_split. now exists rest.
Qed.

(** C3, at the failing input: the query [delayed=7] has no parameter
    named "delay", yet its parameter "delayed" determines the result of
    [requested_delay], which is 7 and not the default 0. *)
Theorem requested_delay_takes_delayed_key :
  let r := GET "/delay?delayed=7" 1 in
  PlainQuery.evhttp_parse_query (req_uri r) =
    [{| key := "delayed"; value := "7" |}] /\
  "delayed"%string <> "delay"%string /\
  strncmp "delayed" "delay" 5 = 0 /\
  requested_delay PlainQuery.evhttp_parse_query r = 7.
Proof. repeat split; try reflexivity. discriminate. Qed.

(** C4, at the failing input: in [delay=10&delay=20&delayed=30] the last
    parameter named "delay" has the value 20, and [requested_delay]
    returns 30, the value of the later parameter "delayed". *)
Theorem requested_delay_last_delay_overridden :
  let r := GET "/delay?delay=10&delay=20&delayed=30" 1 in
  PlainQuery.evhttp_parse_query (req_uri r) =
    [{| key := "delay"; value := "10" |};
     {| key := "delay"; value := "20" |};
     {| key := "delayed"; value := "30" |}] /\
  requested_delay PlainQuery.evhttp_parse_query r = 30 /\
  requested_delay PlainQuery.evhttp_parse_query
    (GET "/delay?delay=10&delay=20" 1) = 20.
Proof. repeat split; reflexivity. Qed.

(** C5, as stated, fails: the value [4294967296] is a valid base-10
    integer prefix, and [requested_delay] does not return it (it returns
    0, the value reduced to [int]). *)
Lemma requested_delay_prefix_out_of_range :
  let r := GET "/delay?delay=4294967296" 1 in
  PlainQuery.evhttp_parse_query (req_uri r) =
    [{| key := "delay"; value := "4294967296" |}] /\
  int_prefix "4294967296" = Some 4294967296 /\
  requested_delay PlainQuery.evhttp_parse_query r = 0 /\
  requested_delay PlainQuery.evhttp_parse_query r <> 4294967296.
Proof. repeat split; try reflexivity. vm_compute. discriminate. Qed.

(** C5, amended: [requested_delay] is a total function into [int].  It
    returns 0 when no parameter key begins with "delay".  When the last
    parameter whose key begins with "delay" is named "delay", it returns
    0 if the value has no valid base-10 integer prefix, and the value of
    the prefix if that value fits an [int]. *)
Theorem requested_delay_default_and_prefix
    (parse : string -> list evkeyval) (r : evhttp_request) :
  in_int (requested_delay parse r) /\
  ((forall q, In q (parse (req_uri r)) -> has_delay_prefix (key q) = false) ->
   requested_delay parse r = 0) /\
  (forall l1 p l2,
     parse (req_uri r) = l1 ++ p :: l2 ->
     key p = "delay"%string ->
     (forall q, In q l2 -> has_delay_prefix (key q) = false) ->
     match int_prefix (value p) with
     | None => requested_delay parse r = 0
     | Some z => in_int z -> requested_delay parse r = z
     end).
Proof.
  split; [apply requested_delay_in_int|]. split.
  - intros H. unfold requested_delay, evhttp_request_uri.
    now apply foreach_param_skip.
  - intros l1 p l2 Hparse Hkey Hl2.
    assert (E : requested_delay parse r = atoi (value p)).
    { unfold requested_delay, evhttp_request_uri. rewrite Hparse.
      apply foreach_param_last; [|exact Hl2]. now rewrite Hkey. }
    rewrite E. destruct (int_prefix (value p)) as [z|] eqn:Hz.
    + intros Hin. now apply atoi_prefix_value.
    + now apply atoi_no_prefix.
Qed.

Lemma requested_delay_default_and_prefix_witness :
  requested_delay PlainQuery.evhttp_parse_query
    (GET "/delay?x=1&delay=10&delay=-12abc&y=2" 1) = -12 /\
  requested_delay PlainQuery.evhttp_parse_query (GET "/delay?x=1&y=2" 1) = 0 /\
  requested_delay PlainQuery.evhttp_parse_query (GET "/delay?delay=abc" 1) = 0.
Proof.
  split; [|split].
  - destruct (requested_delay_default_and_prefix PlainQuery.evhttp_parse_query
                (GET "/delay?x=1&delay=10&delay=-12abc&y=2" 1)) as (_ & _ & H).
    specialize (H [{| key := "x"; value := "1" |}; {| key := "delay"; value := "10" |}]
                  {| key := "delay"; value := "-12abc" |}
                  [{| key := "y"; value := "2" |}] eq_refl eq_refl).
    assert (Hl2 : forall q, In q [{| key := "y"; value := "2" |}] ->
                       has_delay_prefix (key q) = false)
      by (intros q [<-|[]]; reflexivity).
    specialize (H Hl2). cbn [value] in H.
    change (int_prefix "-12abc") with (Some (-12)) in H. cbv iota beta in H.
    apply H. unfold in_int, INT_MIN, INT_MAX. lia.
  - destruct (requested_delay_default_and_prefix PlainQuery.evhttp_parse_query
                (GET "/delay?x=1&y=2" 1)) as (_ & H & _).
    apply H. intros q [<-|[<-|[]]]; reflexivity.
  - destruct (requested_delay_default_and_prefix PlainQuery.evhttp_parse_query
                (GET "/delay?delay=abc" 1)) as (_ & _ & H).
    specialize (H [] {| key := "delay"; value := "abc" |} [] eq_refl eq_refl).
    apply H. intros q [].
Defined.

End QueryFacts.

(* ===================================================================== *)
(** ** Runs of the callbacks                                              *)
(* ===================================================================== *)

Module Runs.
Import C Server.

Lemma fresh_evbuffer w : evbuffers w !! fresh (dom (evbuffers w)) = None.
Proof. apply not_elem_of_dom, is_fresh. Qed.

Lemma fresh_response w : responses w !! fresh (dom (responses w)) = None.
Proof. apply not_elem_of_dom, is_fresh. Qed.

Lemma trace_app_assoc1 (tr : list event) a l : (tr ++ [a]) ++ l = tr ++ a :: l.
Proof. now rewrite <- app_assoc. Qed.

Ltac world_simpl :=
  cbn [evbuffers responses requests timers trace
       log with_evbuffers with_responses with_requests with_timers
       req buf world_of returns aborts].

Ltac map_simpl :=
  repeat first
    [ rewrite lookup_insert_eq
    | rewrite insert_insert_eq
    | rewrite delete_insert_eq
    | rewrite trace_app_assoc1
    | rewrite <- app_assoc ].

Ltac world_eq :=
  unfold log, with_evbuffers, with_responses, with_requests, with_timers;
  cbn [evbuffers responses requests timers trace];
  repeat rewrite <- app_assoc;
  cbn [app sprintf String.append];
  reflexivity.

Section WithParser.
Variable parse : string -> list evkeyval.

(** The immediate callback, when the evbuffer is allocated. *)
Lemma null_response_cb_run e r w :
  evbuffer_new_ok e = true ->
  req_id r ∈ requests w ->
  let b := fresh (dom (evbuffers w)) in
  null_response_cb r e w =
  Ret tt {| evbuffers := evbuffers w;
            responses := responses w;
            requests := requests w ∖ {[req_id r]};
            timers := timers w;
            trace := trace w ++
              [E_evbuffer_new (Some b);
               E_evbuffer_add_printf (Some b) "OK";
               E_evhttp_send_reply r 200 "OK" (Some b) "OK";
               E_evbuffer_free (Some b)] |}.
Proof.
  intros He Hr b.
  unfold null_response_cb, bind, evbuffer_new. rewrite He. fold b.
  unfold evbuffer_add_printf. world_simpl. map_simpl.
  unfold evhttp_send_reply, contents. world_simpl. map_simpl.
  rewrite decide_True by exact Hr.
  unfold evbuffer_free. world_simpl. map_simpl.
  rewrite delete_id by apply fresh_evbuffer.
  world_eq.
Qed.


Lemma null_response_cb_no_buffer e r w :
  evbuffer_new_ok e = false ->
  null_response_cb r e w =
  Fault {| evbuffers := evbuffers w; responses := responses w;
           requests := requests w; timers := timers w;
           trace := trace w ++
             [E_evbuffer_new None; E_evbuffer_add_printf None "OK"] |}.
Proof.
  intros He. unfold null_response_cb, bind, evbuffer_new. rewrite He.
  unfold evbuffer_add_printf. world_eq.
Qed.

Lemma http_response_new_run e r b w :
  malloc_ok e = true ->
  let p := fresh (dom (responses w)) in
  http_response_new r b e w =
  Ret (Some p)
      (log (E_malloc (Some p))
         (with_responses (<[p := {| req := r; buf := b |}]> (responses w)) w)).
Proof.
  intros He p. unfold http_response_new, bind, malloc. rewrite He. fold p.
  unfold assert. rewrite bool_decide_eq_true_2 by eauto.
  unfold store. world_simpl. map_simpl. unfold ret.
  world_eq.
Qed.

Lemma http_response_new_no_memory e r b w :
  malloc_ok e = false ->
  http_response_new r b e w =
  Abort (log (E_assert_fail "resp") (log (E_malloc None) w)).
Proof.
  intros He. unfold http_response_new, bind, malloc. rewrite He.
  unfold assert. rewrite bool_decide_eq_false_2; [reflexivity|].
  intros [x Hx]. discriminate.
Qed.

Lemma delayed_response_cb_run e r w :
  evbuffer_new_ok e = true ->
  malloc_ok e = true ->
  let b := fresh (dom (evbuffers w)) in
  let p := fresh (dom (responses w)) in
  delayed_response_cb parse r e w =
  Ret tt {| evbuffers := <[b := waited parse r]> (evbuffers w);
            responses := <[p := {| req := Some r; buf := Some b |}]> (responses w);
            requests := requests w;
            timers := timers w ++ [delay_timer parse r w];
            trace := trace w ++
              [E_evbuffer_new (Some b);
               E_evbuffer_add_printf (Some b) (waited parse r);
               E_malloc (Some p);
               E_event_once (delay_timer parse r w)] |}.
Proof.
  intros Hb Hm b p.
  unfold delayed_response_cb, bind at 1 2, evbuffer_new. rewrite Hb. fold b.
  unfold evbuffer_add_printf. world_simpl. map_simpl.
  unfold bind. rewrite http_response_new_run by exact Hm.
  unfold event_once, delay_timer, waited. world_eq.
Qed.

Lemma delayed_response_cb_no_buffer e r w :
  evbuffer_new_ok e = false ->
  delayed_response_cb parse r e w =
  Fault {| evbuffers := evbuffers w; responses := responses w;
           requests := requests w; timers := timers w;
           trace := trace w ++
             [E_evbuffer_new None; E_evbuffer_add_printf None (waited parse r)] |}.
Proof.
  intros He. unfold delayed_response_cb, bind, evbuffer_new. rewrite He.
  unfold evbuffer_add_printf, waited. world_eq.
Qed.

Lemma delayed_response_cb_no_memory e r w :
  evbuffer_new_ok e = true ->
  malloc_ok e = false ->
  let b := fresh (dom (evbuffers w)) in
  delayed_response_cb parse r e w =
  Abort {| evbuffers := <[b := waited parse r]> (evbuffers w);
           responses := responses w;
           requests := requests w;
           timers := timers w;
           trace := trace w ++
             [E_evbuffer_new (Some b);
              E_evbuffer_add_printf (Some b) (waited parse r);
              E_malloc None;
              E_assert_fail "resp"] |}.
Proof.
  intros Hb Hm b.
  unfold delayed_response_cb, bind at 1 2, evbuffer_new. rewrite Hb. fold b.
  unfold evbuffer_add_printf. world_simpl. map_simpl.
  unfold bind. rewrite http_response_new_no_memory by exact Hm.
  unfold waited. world_eq.
Qed.

(** The completion callback on a struct that holds a live request and a
    live evbuffer. *)
Lemma send_response_cb_run e fd type p r b body w :
  responses w !! p = Some {| req := Some r; buf := Some b |} ->
  evbuffers w !! b = Some body ->
  req_id r ∈ requests w ->
  send_response_cb fd type (Some p) e w =
  Ret tt {| evbuffers := delete b (evbuffers w);
            responses := delete p (responses w);
            requests := requests w ∖ {[req_id r]};
            timers := timers w;
            trace := trace w ++
              [E_evhttp_send_reply r 200 "OK" (Some b) body;
               E_evbuffer_free (Some b);
               E_free (Some p)] |}.
Proof.
  intros Hp Hb Hr.
  unfold send_response_cb, bind at 1 2, load. rewrite Hp. world_simpl.
  unfold evhttp_send_reply, contents. rewrite Hb, decide_True by exact Hr.
  unfold bind at 1, store. world_simpl. rewrite Hp.
  unfold http_response_free, bind, load. world_simpl. map_simpl. world_simpl.
  unfold ret, evbuffer_free. world_simpl. map_simpl.
  unfold free. world_simpl. map_simpl.
  world_eq.
Qed.

(** Without the assignment [resp->req = NULL] the release would free the
    request a second time: [http_response_free] on a struct that still
    names an answered request is a fault. *)
Lemma http_response_free_answered_request e p r b w :
  responses w !! p = Some {| req := Some r; buf := b |} ->
  req_id r ∉ requests w ->
  http_response_free (Some p) e w = Fault (log (E_evhttp_request_free r) w).
Proof.
  intros Hp Hr. unfold http_response_free, bind at 1 2 3, load. rewrite Hp.
  world_simpl. unfold evhttp_request_free.
  rewrite decide_False by exact Hr. reflexivity.
Qed.

Lemma blocking_response_cb_run e r w :
  evbuffer_new_ok e = true ->
  malloc_ok e = true ->
  usleep_result e = 0 ->
  req_id r ∈ requests w ->
  let b := fresh (dom (evbuffers w)) in
  let p := fresh (dom (responses w)) in
  blocking_response_cb parse r e w =
  Ret tt {| evbuffers := evbuffers w;
            responses := responses w;
            requests := requests w ∖ {[req_id r]};
            timers := timers w;
            trace := trace w ++
              [E_evbuffer_new (Some b);
               E_evbuffer_add_printf (Some b) (waited parse r);
               E_malloc (Some p);
               E_usleep (int_mul (requested_delay parse r) 1000) 0;
               E_evhttp_send_reply r 200 "OK" (Some b) (waited parse r);
               E_evbuffer_free (Some b);
               E_free (Some p)] |}.
Proof.
  intros Hb Hm Hu Hr b p.
  unfold blocking_response_cb, bind at 1 2, evbuffer_new. rewrite Hb. fold b.
  unfold evbuffer_add_printf. world_simpl. map_simpl.
  unfold bind at 1. rewrite http_response_new_run by exact Hm.
  world_simpl. fold p.
  unfold bind at 1 2, usleep, assert. rewrite Hu. cbn [Z.eqb].
  erewrite send_response_cb_run; world_simpl; map_simpl;
    [ | reflexivity | reflexivity | exact Hr ].
  rewrite ?delete_insert_eq.
  rewrite (delete_id _ b) by apply fresh_evbuffer.
  rewrite (delete_id _ p) by apply fresh_response.
  unfold waited. world_eq.
Qed.

Lemma blocking_response_cb_interrupted e r w :
  evbuffer_new_ok e = true ->
  malloc_ok e = true ->
  usleep_result e <> 0 ->
  let b := fresh (dom (evbuffers w)) in
  let p := fresh (dom (responses w)) in
  blocking_response_cb parse r e w =
  Abort {| evbuffers := <[b := waited parse r]> (evbuffers w);
           responses := <[p := {| req := Some r; buf := Some b |}]> (responses w);
           requests := requests w;
           timers := timers w;
           trace := trace w ++
             [E_evbuffer_new (Some b);
              E_evbuffer_add_printf (Some b) (waited parse r);
              E_malloc (Some p);
              E_usleep (int_mul (requested_delay parse r) 1000) (usleep_result e);
              E_assert_fail "usleep(wait*1000)==0"] |}.
Proof.
  intros Hb Hm Hu b p.
  unfold blocking_response_cb, bind at 1 2, evbuffer_new. rewrite Hb. fold b.
  unfold evbuffer_add_printf. world_simpl. map_simpl.
  unfold bind at 1. rewrite http_response_new_run by exact Hm.
  world_simpl. fold p.
  unfold bind, usleep, assert.
  destruct (Z.eqb_spec (usleep_result e) 0) as [E|_]; [contradiction|].
  unfold waited. world_eq.
Qed.

Lemma blocking_response_cb_no_buffer e r w :
  evbuffer_new_ok e = false ->
  blocking_response_cb parse r e w =
  Fault {| evbuffers := evbuffers w; responses := responses w;
           requests := requests w; timers := timers w;
           trace := trace w ++
             [E_evbuffer_new None; E_evbuffer_add_printf None (waited parse r)] |}.
Proof.
  intros He. unfold blocking_response_cb, bind, evbuffer_new. rewrite He.
  unfold evbuffer_add_printf, waited. world_eq.
Qed.

Lemma blocking_response_cb_no_memory e r w :
  evbuffer_new_ok e = true ->
  malloc_ok e = false ->
  let b := fresh (dom (evbuffers w)) in
  blocking_response_cb parse r e w =
  Abort {| evbuffers := <[b := waited parse r]> (evbuffers w);
           responses := responses w;
           requests := requests w;
           timers := timers w;
           trace := trace w ++
             [E_evbuffer_new (Some b);
              E_evbuffer_add_printf (Some b) (waited parse r);
              E_malloc None;
              E_assert_fail "resp"] |}.
Proof.
  intros Hb Hm b.
  unfold blocking_response_cb, bind at 1 2, evbuffer_new. rewrite Hb. fold b.
  unfold evbuffer_add_printf. world_simpl. map_simpl.
  unfold bind. rewrite http_response_new_no_memory by exact Hm.
  unfold waited. world_eq.
Qed.

End WithParser.
End Runs.

(* ===================================================================== *)
(** ** Serving a request                                                  *)
(* ===================================================================== *)

Module Serving.
Import C Server Runs.

Lemma new_events_app w w' evs :
  trace w' = trace w ++ evs -> new_events w w' = evs.
Proof. intros H. unfold new_events. rewrite H. apply drop_app_length. Qed.

Lemma new_events_mk w bs rs qs ts evs :
  new_events w {| evbuffers := bs; responses := rs; requests := qs;
                  timers := ts; trace := trace w ++ evs |} = evs.
Proof. now apply new_events_app. Qed.

Lemma answered_not_live (qs : gset nat) (i : nat) : i ∉ qs ∖ {[i]}.
Proof.
  intros H. apply elem_of_difference in H as [_ H].
  apply H. now apply elem_of_singleton.
Qed.

Lemma live_in_idle (ids : list nat) (i : nat) :
  In i ids -> i ∈ requests (idle_world ids).
Proof.
  intros H. cbn [idle_world requests].
  apply elem_of_list_to_set, list_elem_of_In, H.
Qed.

Lemma replies_app l1 l2 : replies (l1 ++ l2) = replies l1 ++ replies l2.
Proof.
  induction l1 as [|ev l1 IH]; [reflexivity|].
  destruct ev; cbn [replies app]; rewrite ?IH; reflexivity.
Qed.

Lemma count_app f l1 l2 : count f (l1 ++ l2) = (count f l1 + count f l2)%nat.
Proof. unfold count. now rewrite List.filter_app, List.length_app. Qed.

Lemma count_cons f ev l :
  count f (ev :: l) = ((if f ev then 1 else 0) + count f l)%nat.
Proof. unfold count. cbn [List.filter]. destruct (f ev); reflexivity. Qed.

Lemma delete_appended (ts : list timer) t :
  delete (List.length ts) (ts ++ [t]) = ts.
Proof.
  induction ts as [|t' ts IH]; [reflexivity|].
  cbn [List.length app]. change (delete (S (List.length ts)) (t' :: (ts ++ [t])))
    with (t' :: delete (List.length ts) (ts ++ [t])).
  now rewrite IH.
Qed.

Section WithParser.
Variable parse : string -> list evkeyval.

Lemma timeout_process_idle e w w0 :
  timers w = timers w0 ->
  timeout_process (List.length (timers w0)) e w = Ret tt w.
Proof.
  intros H. unfold timeout_process. rewrite H.
  rewrite lookup_ge_None_2 by lia. reflexivity.
Qed.

Lemma serve_null_run e r w :
  evbuffer_new_ok e = true ->
  req_id r ∈ requests w ->
  let b := fresh (dom (evbuffers w)) in
  serve parse Null_response_cb r e w =
  Ret tt {| evbuffers := evbuffers w;
            responses := responses w;
            requests := requests w ∖ {[req_id r]};
            timers := timers w;
            trace := trace w ++
              [E_evbuffer_new (Some b);
               E_evbuffer_add_printf (Some b) "OK";
               E_evhttp_send_reply r 200 "OK" (Some b) "OK";
               E_evbuffer_free (Some b)] |}.
Proof.
  intros Hb Hr b. unfold serve, bind. cbn [run_handler].
  rewrite null_response_cb_run by assumption.
  now rewrite timeout_process_idle.
Qed.

Lemma serve_delayed_run e r w :
  evbuffer_new_ok e = true ->
  malloc_ok e = true ->
  req_id r ∈ requests w ->
  let b := fresh (dom (evbuffers w)) in
  let p := fresh (dom (responses w)) in
  serve parse Delayed_response_cb r e w =
  Ret tt {| evbuffers := evbuffers w;
            responses := responses w;
            requests := requests w ∖ {[req_id r]};
            timers := timers w;
            trace := trace w ++
              [E_evbuffer_new (Some b);
               E_evbuffer_add_printf (Some b) (waited parse r);
               E_malloc (Some p);
               E_event_once (delay_timer parse r w);
               E_evhttp_send_reply r 200 "OK" (Some b) (waited parse r);
               E_evbuffer_free (Some b);
               E_free (Some p)] |}.
Proof.
  intros Hb Hm Hr b p. unfold serve, bind. cbn [run_handler].
  rewrite delayed_response_cb_run by assumption.
  unfold timeout_process. cbn [timers].
  rewrite lookup_app_r, Nat.sub_diag by lia. cbn [lookup list_lookup].
  rewrite delete_appended.
  unfold fire_timer, run_callback, delay_timer at 1 2 3. cbn [timer_cb timer_fd timer_arg].
  erewrite send_response_cb_run; unfold with_timers; cbn [evbuffers responses requests];
    [ | apply lookup_insert_eq | apply lookup_insert_eq | exact Hr ].
  cbn [evbuffers responses requests timers trace].
  rewrite !delete_insert_eq.
  rewrite (delete_id _ (fresh (dom (evbuffers w)))) by apply fresh_evbuffer.
  rewrite (delete_id _ (fresh (dom (responses w)))) by apply fresh_response.
  rewrite <- app_assoc. reflexivity.
Qed.

Lemma serve_blocking_run e r w :
  evbuffer_new_ok e = true ->
  malloc_ok e = true ->
  usleep_result e = 0 ->
  req_id r ∈ requests w ->
  let b := fresh (dom (evbuffers w)) in
  let p := fresh (dom (responses w)) in
  serve parse Blocking_response_cb r e w =
  Ret tt {| evbuffers := evbuffers w;
            responses := responses w;
            requests := requests w ∖ {[req_id r]};
            timers := timers w;
            trace := trace w ++
              [E_evbuffer_new (Some b);
               E_evbuffer_add_printf (Some b) (waited parse r);
               E_malloc (Some p);
               E_usleep (int_mul (requested_delay parse r) 1000) 0;
               E_evhttp_send_reply r 200 "OK" (Some b) (waited parse r);
               E_evbuffer_free (Some b);
               E_free (Some p)] |}.
Proof.
  intros Hb Hm Hu Hr b p. unfold serve, bind. cbn [run_handler].
  rewrite blocking_response_cb_run by assumption.
  now rewrite timeout_process_idle.
Qed.

(** When a callback does not return, serving the request ends there. *)
Lemma serve_stops h e r w :
  returns (run_handler parse h r e w) = false ->
  serve parse h r e w =
  match run_handler parse h r e w with
  | Ret _ w' => Fault w'
  | Abort w' => Abort w'
  | Fault w' => Fault w'
  end.
Proof.
  unfold serve, bind. destruct (run_handler parse h r e w); [discriminate|reflexivity..].
Qed.

(** The four ways serving a live request can go. *)
Lemma serve_done h e r w :
  evbuffer_new_ok e = true ->
  (h <> Null_response_cb -> malloc_ok e = true) ->
  (h = Blocking_response_cb -> usleep_result e = 0) ->
  req_id r ∈ requests w ->
  let b := fresh (dom (evbuffers w)) in
  let p := fresh (dom (responses w)) in
  serve parse h r e w =
  Ret tt {| evbuffers := evbuffers w;
            responses := responses w;
            requests := requests w ∖ {[req_id r]};
            timers := timers w;
            trace := trace w ++
              (events_before_reply parse h r w b p ++
               E_evhttp_send_reply r 200 "OK" (Some b) (reply_text parse h r) ::
               events_after_reply h b p) |}.
Proof.
  intros Hb Hm Hu Hr b p. destruct h.
  - now rewrite serve_null_run.
  - rewrite serve_delayed_run; auto.
  - rewrite serve_blocking_run; auto.
Qed.

Lemma serve_no_buffer h e r w :
  evbuffer_new_ok e = false ->
  serve parse h r e w =
  Fault {| evbuffers := evbuffers w; responses := responses w;
           requests := requests w; timers := timers w;
           trace := trace w ++
             [E_evbuffer_new None;
              E_evbuffer_add_printf None (reply_text parse h r)] |}.
Proof.
  intros Hb. rewrite serve_stops; destruct h; cbn [run_handler];
    rewrite ?null_response_cb_no_buffer, ?delayed_response_cb_no_buffer,
            ?blocking_response_cb_no_buffer by assumption; reflexivity.
Qed.

Lemma serve_no_memory h e r w :
  h <> Null_response_cb ->
  evbuffer_new_ok e = true ->
  malloc_ok e = false ->
  let b := fresh (dom (evbuffers w)) in
  serve parse h r e w =
  Abort {| evbuffers := <[b := reply_text parse h r]> (evbuffers w);
           responses := responses w;
           requests := requests w;
           timers := timers w;
           trace := trace w ++
             [E_evbuffer_new (Some b);
              E_evbuffer_add_printf (Some b) (reply_text parse h r);
              E_malloc None;
              E_assert_fail "resp"] |}.
Proof.
  intros Hh Hb Hm b. rewrite serve_stops; destruct h; try contradiction;
    cbn [run_handler];
    rewrite ?delayed_response_cb_no_memory, ?blocking_response_cb_no_memory
      by assumption; reflexivity.
Qed.

Lemma serve_interrupted e r w :
  evbuffer_new_ok e = true ->
  malloc_ok e = true ->
  usleep_result e <> 0 ->
  let b := fresh (dom (evbuffers w)) in
  let p := fresh (dom (responses w)) in
  serve parse Blocking_response_cb r e w =
  Abort {| evbuffers := <[b := waited parse r]> (evbuffers w);
           responses := <[p := {| req := Some r; buf := Some b |}]> (responses w);
           requests := requests w;
           timers := timers w;
           trace := trace w ++
             [E_evbuffer_new (Some b);
              E_evbuffer_add_printf (Some b) (waited parse r);
              E_malloc (Some p);
              E_usleep (int_mul (requested_delay parse r) 1000) (usleep_result e);
              E_assert_fail "usleep(wait*1000)==0"] |}.
Proof.
  intros Hb Hm Hu b p. rewrite serve_stops; cbn [run_handler];
    rewrite blocking_response_cb_interrupted by assumption; reflexivity.
Qed.

(** Every run of [serve] on a live request is one of the four. *)
Lemma serve_cases h e r w :
  req_id r ∈ requests w ->
  let o := serve parse h r e w in
  let evs := new_events w (world_of o) in
  let b := fresh (dom (evbuffers w)) in
  let p := fresh (dom (responses w)) in
  (returns o = true /\ aborts o = false /\
   evbuffer_new_ok e = true /\
   (h <> Null_response_cb -> malloc_ok e = true) /\
   (h = Blocking_response_cb -> usleep_result e = 0) /\
   evs = events_before_reply parse h r w b p ++
         E_evhttp_send_reply r 200 "OK" (Some b) (reply_text parse h r) ::
         events_after_reply h b p /\
   same_resources w (world_of o) /\
   req_id r ∉ requests (world_of o))
  \/
  (returns o = false /\ aborts o = false /\
   evbuffer_new_ok e = false /\
   evs = [E_evbuffer_new None;
          E_evbuffer_add_printf None (reply_text parse h r)])
  \/
  (returns o = false /\ aborts o = true /\
   h <> Null_response_cb /\ evbuffer_new_ok e = true /\ malloc_ok e = false /\
   evs = [E_evbuffer_new (Some b);
          E_evbuffer_add_printf (Some b) (reply_text parse h r);
          E_malloc None;
          E_assert_fail "resp"] /\
   timers (world_of o) = timers w)
  \/
  (returns o = false /\ aborts o = true /\
   h = Blocking_response_cb /\
   evbuffer_new_ok e = true /\ malloc_ok e = true /\ usleep_result e <> 0 /\
   evs = [E_evbuffer_new (Some b);
          E_evbuffer_add_printf (Some b) (reply_text parse h r);
          E_malloc (Some p);
          E_usleep (int_mul (requested_delay parse r) 1000) (usleep_result e);
          E_assert_fail "usleep(wait*1000)==0"] /\
   req_id r ∈ requests (world_of o)).
Proof.
  intros Hr o evs b p. subst o evs.
  destruct (evbuffer_new_ok e) eqn:Hb.
  2:{ right; left. rewrite serve_no_buffer by assumption.
      cbn [world_of returns aborts]. rewrite new_events_mk. repeat split. }
  assert (Hdone :
    (h <> Null_response_cb -> malloc_ok e = true) ->
    (h = Blocking_response_cb -> usleep_result e = 0) ->
    returns (serve parse h r e w) = true /\
    aborts (serve parse h r e w) = false /\
    true = true /\
    (h <> Null_response_cb -> malloc_ok e = true) /\
    (h = Blocking_response_cb -> usleep_result e = 0) /\
    new_events w (world_of (serve parse h r e w)) =
      events_before_reply parse h r w b p ++
      E_evhttp_send_reply r 200 "OK" (Some b) (reply_text parse h r) ::
      events_after_reply h b p /\
    same_resources w (world_of (serve parse h r e w)) /\
    req_id r ∉ requests (world_of (serve parse h r e w))).
  { intros Hm Hu. rewrite serve_done by assumption.
    cbn [world_of returns aborts requests]. rewrite new_events_mk.
    repeat split; auto. apply answered_not_live. }
  assert (Hn : h = Null_response_cb \/ h <> Null_response_cb)
    by (destruct h; auto; right; discriminate).
  destruct Hn as [Hn|Hn].
  { left. apply Hdone; [contradiction | subst h; discriminate]. }
  destruct (malloc_ok e) eqn:Hm.
  2:{ right; right; left. rewrite serve_no_memory by assumption.
      cbn [world_of returns aborts timers]. rewrite new_events_mk. repeat split.
      exact Hn. }
  assert (Hbl : h = Blocking_response_cb \/ h <> Blocking_response_cb)
    by (destruct h; auto; right; discriminate).
  destruct Hbl as [Hbl|Hbl].
  2:{ left. apply Hdone; [reflexivity | contradiction]. }
  destruct (Z.eq_dec (usleep_result e) 0) as [Hu|Hu].
  { left. apply Hdone; auto. }
  right; right; right. subst h. rewrite serve_interrupted by assumption.
  cbn [world_of returns aborts requests]. rewrite new_events_mk. repeat split; auto.
Qed.

End WithParser.
End Serving.

(* ===================================================================== *)
(** ** The lifecycle of a response                                        *)
(* ===================================================================== *)

Module Lifecycle.
Import C Server Runs Serving.

Ltac count_simpl :=
  cbn [count List.filter is_send_reply is_request_free is_event_once
       List.length replies app events_before_reply events_after_reply].

Section WithParser.
Variable parse : string -> list evkeyval.

Lemma no_reply_before h r w b p :
  count is_send_reply (events_before_reply parse h r w b p) = 0%nat /\
  count is_request_free (events_before_reply parse h r w b p) = 0%nat /\
  replies (events_before_reply parse h r w b p) = [].
Proof. destruct h; repeat split. Qed.

Lemma no_reply_after h b p :
  count is_send_reply (events_after_reply h b p) = 0%nat /\
  count is_request_free (events_after_reply h b p) = 0%nat /\
  replies (events_after_reply h b p) = [].
Proof. destruct h; repeat split. Qed.

(** C2: for each of the three callbacks, serving a live request sends at
    most one reply and never calls the request-freeing operation,
    whatever the environment does.  The request is served to the end
    exactly when no allocation fails and the sleep is not cut short; then
    exactly one reply is sent through the request, the release of the
    body buffer and, where there is one, of the holder follow at once,
    no evbuffer, struct or timer is left over and the request is no
    longer live. *)
Theorem reply_sent_once_then_holder_released
    (h : handler) (e : env) (r : evhttp_request) (w : world) :
  req_id r ∈ requests w ->
  let o := serve parse h r e w in
  let evs := new_events w (world_of o) in
  let b := fresh (dom (evbuffers w)) in
  let p := fresh (dom (responses w)) in
  (count is_send_reply evs <= 1)%nat /\
  count is_request_free evs = 0%nat /\
  (returns o = true <->
   evbuffer_new_ok e = true /\
   (h <> Null_response_cb -> malloc_ok e = true) /\
   (h = Blocking_response_cb -> usleep_result e = 0)) /\
  (returns o = true ->
   exists before,
     evs = before ++
           E_evhttp_send_reply r 200 "OK" (Some b) (reply_text parse h r) ::
           E_evbuffer_free (Some b) ::
           match h with
           | Null_response_cb => []
           | _ => [E_free (Some p)]
           end /\
     count is_send_reply before = 0%nat /\
     (h <> Null_response_cb -> In (E_malloc (Some p)) before) /\
     same_resources w (world_of o) /\
     req_id r ∉ requests (world_of o)).
Proof.
  intros Hr o evs b p.
  pose proof (serve_cases parse h e r w Hr) as Hcases. cbv zeta in Hcases.
  fold o in Hcases. fold evs b p in Hcases.
  destruct Hcases
    as [(Hret & _ & Hb & Hm & Hu & Hevs & Hsame & Hgone)
       |[(Hret & _ & Hb & Hevs)
       |[(Hret & _ & Hh & Hb & Hm & Hevs & _)
        |(Hret & _ & Hh & Hb & Hm & Hu & Hevs & _)]]];
    rewrite Hret, Hevs.
  - destruct (no_reply_before h r w b p) as (B1 & B2 & _).
    destruct (no_reply_after h b p) as (A1 & A2 & _).
    rewrite !count_app, !count_cons, B1, B2, A1, A2.
    cbn [is_send_reply is_request_free].
    split; [lia|]. split; [reflexivity|].
    split; [tauto|]. intros _.
    exists (events_before_reply parse h r w b p).
    split; [destruct h; reflexivity|]. split; [exact B1|].
    split; [|auto]. intros Hh. destruct h; [contradiction|cbn; tauto..].
  - split; [cbn; lia|]. split; [reflexivity|]. split; [|discriminate].
    split; [discriminate|]. intros (Hb' & _). congruence.
  - split; [cbn; lia|]. split; [reflexivity|]. split; [|discriminate].
    split; [discriminate|]. intros (_ & Hm' & _). specialize (Hm' Hh). congruence.
  - split; [cbn; lia|]. split; [reflexivity|]. split; [|discriminate].
    split; [discriminate|]. intros (_ & _ & Hu'). specialize (Hu' Hh). contradiction.
Qed.

End WithParser.

Lemma reply_sent_once_then_holder_released_witness :
  exists before,
    new_events (idle_world [1%nat])
      (world_of (serve PlainQuery.evhttp_parse_query Delayed_response_cb
                   (GET "/delay?delay=250" 1) env_ok (idle_world [1%nat]))) =
    before ++ [E_evhttp_send_reply (GET "/delay?delay=250" 1) 200 "OK"
                 (Some 0%nat) "Waited 250 ms";
               E_evbuffer_free (Some 0%nat);
               E_free (Some 0%nat)].
Proof.
  assert (Hlive : req_id (GET "/delay?delay=250" 1) ∈ requests (idle_world [1%nat]))
    by (apply live_in_idle; cbn; auto).
  destruct (reply_sent_once_then_holder_released PlainQuery.evhttp_parse_query
              Delayed_response_cb env_ok (GET "/delay?delay=250" 1)
              (idle_world [1%nat]) Hlive)
    as (_ & _ & Hiff & H).
  destruct H as (before & Hevs & _).
  - apply Hiff. repeat split.
  - exists before. exact Hevs.
Defined.

End Lifecycle.

(* ===================================================================== *)
(** ** The three routes                                                   *)
(* ===================================================================== *)

Module Routes.
Import C Server Runs Serving Lifecycle.

Lemma same_resources_refl w : same_resources w w.
Proof. repeat split. Qed.

Lemma same_resources_trans w1 w2 w3 :
  same_resources w1 w2 -> same_resources w2 w3 -> same_resources w1 w3.
Proof.
  unfold same_resources. intros (A1 & B1 & C1) (A2 & B2 & C2).
  repeat split; congruence.
Qed.

Section WithParser.
Variable parse : string -> list evkeyval.

(** *** The immediate route *)

Lemma serve_request_root e r w :
  request_path r = "/"%string ->
  serve_request parse r e w = serve parse Null_response_cb r e w.
Proof. intros H. unfold serve_request. rewrite H. reflexivity. Qed.

(** Requests to "/" served one after the other: every one gets the same
    reply and the server is left with the resources it started with. *)
Lemma serve_all_root e rs : forall w,
  evbuffer_new_ok e = true ->
  (forall r, In r rs -> request_path r = "/"%string) ->
  NoDup (List.map req_id rs) ->
  (forall r, In r rs -> req_id r ∈ requests w) ->
  exists w' evs,
    serve_all parse rs e w = Ret tt w' /\
    trace w' = trace w ++ evs /\
    replies evs = List.map (fun r => (r, 200, "OK"%string)) rs /\
    count is_event_once evs = 0%nat /\
    same_resources w w'.
Proof.
  induction rs as [|r rs IH]; intros w Hb Hpath Hnd Hlive.
  - exists w, []. cbn [serve_all]. unfold ret. rewrite app_nil_r.
    repeat split.
  - cbn [serve_all]. unfold bind.
    rewrite serve_request_root by (apply Hpath; now left).
    rewrite serve_null_run by (try apply Hlive; auto; now left).
    set (w1 := {| evbuffers := evbuffers w |}).
    cbn [List.map] in Hnd. apply NoDup_cons in Hnd as [Hnotin Hnd].
    destruct (IH w1 Hb) as (w' & evs & Hrun & Htr & Hrep & Hcnt & Hsame).
    + intros q Hq. apply Hpath. now right.
    + exact Hnd.
    + intros q Hq. subst w1. cbn [requests].
      apply elem_of_difference. split; [apply Hlive; now right|].
      intros Heq. apply elem_of_singleton in Heq.
      apply Hnotin. rewrite <- Heq. apply list_elem_of_In.
      apply List.in_map_iff. exists q. split; [reflexivity|exact Hq].
    + exists w'.
      exists ([E_evbuffer_new (Some (fresh (dom (evbuffers w))));
               E_evbuffer_add_printf (Some (fresh (dom (evbuffers w)))) "OK";
               E_evhttp_send_reply r 200 "OK" (Some (fresh (dom (evbuffers w)))) "OK";
               E_evbuffer_free (Some (fresh (dom (evbuffers w))))] ++ evs).
      split; [exact Hrun|]. split.
      { rewrite Htr. subst w1. cbn [trace]. rewrite <- app_assoc. reflexivity. }
      rewrite replies_app, count_app, Hrep, Hcnt. cbn [List.map].
      split; [reflexivity|]. split; [reflexivity|].
      eapply same_resources_trans; [|exact Hsame].
      subst w1. repeat split.
Qed.

(** C7: requests whose path is "/", whatever their methods and queries,
    served one after the other: no timer is ever armed and every reply
    sent is status 200 with body "OK", in the order of the requests;
    when the evbuffer allocation succeeds the callback returns for every
    request, each one gets that reply, and the server is left with the
    evbuffers, structs and timers it started with. *)
Theorem root_replies_ok_and_leaves_no_state
    (e : env) (rs : list evhttp_request) (w : world) :
  (forall r, In r rs -> request_path r = "/"%string) ->
  NoDup (List.map req_id rs) ->
  (forall r, In r rs -> req_id r ∈ requests w) ->
  let o := serve_all parse rs e w in
  let evs := new_events w (world_of o) in
  count is_event_once evs = 0%nat /\
  (exists n, replies evs =
             List.map (fun r => (r, 200, "OK"%string)) (List.firstn n rs)) /\
  (evbuffer_new_ok e = true ->
   returns o = true /\
   replies evs = List.map (fun r => (r, 200, "OK"%string)) rs /\
   same_resources w (world_of o)).
Proof.
  intros Hpath Hnd Hlive o evs.
  destruct (evbuffer_new_ok e) eqn:Hb.
  - destruct (serve_all_root e rs w Hb Hpath Hnd Hlive)
      as (w' & evs' & Hrun & Htr & Hrep & Hcnt & Hsame).
    subst evs o. rewrite Hrun. cbn [world_of returns].
    rewrite (new_events_app _ _ _ Htr).
    split; [exact Hcnt|]. split; [|auto].
    exists (List.length rs). now rewrite List.firstn_all.
  - subst evs o. destruct rs as [|r rs].
    + cbn [serve_all]. unfold ret. cbn [world_of].
      rewrite (new_events_app w w [] (eq_sym (app_nil_r _))).
      split; [reflexivity|]. split; [exists 0%nat; reflexivity|discriminate].
    + cbn [serve_all]. unfold bind.
      rewrite serve_request_root by (apply Hpath; now left).
      rewrite serve_no_buffer by assumption.
      cbn [world_of]. rewrite new_events_mk.
      split; [reflexivity|]. split; [exists 0%nat; reflexivity|discriminate].
Qed.

(** *** The delayed routes *)

Lemma serve_blocking_is_callback e r w :
  req_id r ∈ requests w ->
  serve parse Blocking_response_cb r e w = blocking_response_cb parse r e w.
Proof.
  intros Hr. destruct (evbuffer_new_ok e) eqn:Hb.
  - destruct (malloc_ok e) eqn:Hm.
    + destruct (Z.eq_dec (usleep_result e) 0) as [Hu|Hu].
      * now rewrite serve_blocking_run, blocking_response_cb_run.
      * now rewrite serve_interrupted, blocking_response_cb_interrupted.
    + now rewrite serve_no_memory, blocking_response_cb_no_memory.
  - now rewrite serve_no_buffer, blocking_response_cb_no_buffer.
Qed.

(** C6: a delayed callback prints "Waited ", the parsed delay as [%d]
    writes it, " ms" into the body buffer; a reply, if one is sent, has
    status 200 and that body, and when nothing fails it is sent.  What
    [%d] writes is the delay in decimal with no leading zeros, and reads
    back as the delay. *)
Theorem delayed_reply_is_waited_d_ms
    (h : handler) (e : env) (r : evhttp_request) (w : world) :
  h <> Null_response_cb ->
  req_id r ∈ requests w ->
  let d := requested_delay parse r in
  let body := String.append "Waited " (String.append (fmt_d d) " ms") in
  let o := serve parse h r e w in
  let evs := new_events w (world_of o) in
  (exists b, In (E_evbuffer_add_printf b body) evs) /\
  (replies evs = [] \/ replies evs = [(r, 200, body)]) /\
  (evbuffer_new_ok e = true -> malloc_ok e = true ->
   (h = Blocking_response_cb -> usleep_result e = 0) ->
   returns o = true /\ replies evs = [(r, 200, body)]) /\
  IntPrefix.decimal_of d (fmt_d d) /\
  atoi (fmt_d d) = d.
Proof.
  intros Hh Hr d body o evs.
  assert (Hw : reply_text parse h r = body).
  { destruct h; [contradiction|apply FmtFacts.sprintf_waited..]. }
  assert (Hdec : IntPrefix.decimal_of d (fmt_d d)) by apply FmtFacts.fmt_d_decimal.
  assert (Hback : atoi (fmt_d d) = d)
    by apply FmtFacts.atoi_fmt_d, QueryFacts.requested_delay_in_int.
  pose proof (serve_cases parse h e r w Hr) as Hcases. cbv zeta in Hcases.
  fold o in Hcases. fold evs in Hcases. rewrite Hw in Hcases.
  destruct Hcases
    as [(Hret & _ & Hb & Hm & Hu & Hevs & _)
       |[(Hret & _ & Hb & Hevs)
       |[(Hret & _ & _ & Hb & Hm & Hevs & _)
        |(Hret & _ & Hbl & Hb & Hm & Hu & Hevs & _)]]];
    rewrite Hret, Hevs.
  - assert (Hrep : replies
        (events_before_reply parse h r w (fresh (dom (evbuffers w)))
           (fresh (dom (responses w))) ++
         E_evhttp_send_reply r 200 "OK" (Some (fresh (dom (evbuffers w)))) body
         :: events_after_reply h (fresh (dom (evbuffers w)))
              (fresh (dom (responses w)))) = [(r, 200, body)]).
    { rewrite replies_app. cbn [replies].
      destruct (no_reply_before parse h r w (fresh (dom (evbuffers w)))
                  (fresh (dom (responses w)))) as (_ & _ & ->).
      destruct (no_reply_after h (fresh (dom (evbuffers w)))
                  (fresh (dom (responses w)))) as (_ & _ & ->).
      reflexivity. }
    rewrite Hrep. repeat split; auto.
    exists (Some (fresh (dom (evbuffers w)))).
    apply List.in_or_app. left. unfold events_before_reply. rewrite Hw.
    cbn. tauto.
  - split; [eexists; cbn; tauto|]. split; [now left|].
    split; [intros; congruence|auto].
  - split; [eexists; cbn; tauto|]. split; [now left|].
    split; [intros; congruence|auto].
  - split; [eexists; cbn; tauto|]. split; [now left|].
    split; [|auto]. intros _ _ Hu'. specialize (Hu' Hbl). contradiction.
Qed.

(** X15: in the blocking callback a reply is sent only if [usleep]
    returned 0.  With both allocations done, [usleep] is called with the
    [int] product [wait * 1000]; if it returns nonzero the process aborts
    on the assertion, no reply is sent and the request stays unanswered;
    if it returns 0 the reply is sent with status 200 and the holder is
    released. *)
Theorem blocking_sleep_must_complete
    (e : env) (r : evhttp_request) (w : world) :
  req_id r ∈ requests w ->
  let o := blocking_response_cb parse r e w in
  let evs := new_events w (world_of o) in
  let b := fresh (dom (evbuffers w)) in
  let p := fresh (dom (responses w)) in
  (replies evs <> [] -> usleep_result e = 0) /\
  (evbuffer_new_ok e = true -> malloc_ok e = true ->
   In (E_usleep (int_mul (requested_delay parse r) 1000) (usleep_result e)) evs) /\
  (evbuffer_new_ok e = true -> malloc_ok e = true -> usleep_result e <> 0 ->
   aborts o = true /\ replies evs = [] /\
   last evs = Some (E_assert_fail "usleep(wait*1000)==0") /\
   req_id r ∈ requests (world_of o)) /\
  (evbuffer_new_ok e = true -> malloc_ok e = true -> usleep_result e = 0 ->
   returns o = true /\
   replies evs = [(r, 200, waited parse r)] /\
   (exists before,
      evs = before ++ [E_evhttp_send_reply r 200 "OK" (Some b) (waited parse r);
                       E_evbuffer_free (Some b);
                       E_free (Some p)]) /\
   same_resources w (world_of o) /\
   req_id r ∉ requests (world_of o)).
Proof.
  intros Hr o evs b p. subst o evs.
  rewrite <- serve_blocking_is_callback by exact Hr.
  pose proof (serve_cases parse Blocking_response_cb e r w Hr) as Hcases.
  cbv zeta in Hcases. fold b p in Hcases.
  destruct Hcases
    as [(Hret & Hab & Hb & Hm & Hu & Hevs & Hsame & Hgone)
       |[(Hret & Hab & Hb & Hevs)
       |[(Hret & Hab & _ & Hb & Hm & Hevs & _)
        |(Hret & Hab & _ & Hb & Hm & Hu & Hevs & Hlive)]]];
    rewrite Hret, Hab, Hevs.
  - specialize (Hu eq_refl). rewrite Hu.
    split; [auto|]. split; [intros; cbn; tauto|].
    split; [intros; congruence|]. intros _ _ _.
    split; [reflexivity|]. split; [reflexivity|].
    split; [eexists [_; _; _; _]; reflexivity|].
    split; [exact Hsame | exact Hgone].
  - split; [intros H; contradiction H; reflexivity|].
    split; [intros; congruence|]. split; intros; congruence.
  - split; [intros H; contradiction H; reflexivity|].
    split; [intros; congruence|]. split; intros; congruence.
  - split; [intros H; contradiction H; reflexivity|].
    split; [intros; cbn; tauto|]. split; [|intros; congruence].
    intros _ _ _. repeat split. exact Hlive.
Qed.

End WithParser.

Lemma root_replies_ok_and_leaves_no_state_witness :
  replies
    (new_events (idle_world [1; 2]%nat)
       (world_of (serve_all PlainQuery.evhttp_parse_query
                    [GET "/" 1; GET "/?x=1" 2] env_ok (idle_world [1; 2]%nat)))) =
  [(GET "/" 1, 200, "OK"%string); (GET "/?x=1" 2, 200, "OK"%string)].
Proof.
  apply (root_replies_ok_and_leaves_no_state PlainQuery.evhttp_parse_query
           env_ok [GET "/" 1; GET "/?x=1" 2] (idle_world [1; 2]%nat)).
  - intros r [<-|[<-|[]]]; reflexivity.
  - apply (bool_decide_unpack _). vm_compute. reflexivity.
  - intros r [<-|[<-|[]]]; apply live_in_idle; cbn; auto.
  - reflexivity.
Defined.

Lemma delayed_reply_is_waited_d_ms_witness :
  returns (serve PlainQuery.evhttp_parse_query Blocking_response_cb
             (GET "/block?delay=250" 1) env_ok (idle_world [1%nat])) = true /\
  replies
    (new_events (idle_world [1%nat])
       (world_of (serve PlainQuery.evhttp_parse_query Blocking_response_cb
                    (GET "/block?delay=250" 1) env_ok (idle_world [1%nat])))) =
  [(GET "/block?delay=250" 1, 200, "Waited 250 ms"%string)].
Proof.
  assert (Hlive : req_id (GET "/block?delay=250" 1) ∈ requests (idle_world [1%nat]))
    by (apply live_in_idle; cbn; auto).
  destruct (delayed_reply_is_waited_d_ms PlainQuery.evhttp_parse_query
              Blocking_response_cb env_ok (GET "/block?delay=250" 1)
              (idle_world [1%nat]) ltac:(discriminate) Hlive)
    as (_ & _ & H & _).
  apply H; reflexivity.
Defined.

Lemma blocking_sleep_must_complete_witness :
  aborts (blocking_response_cb PlainQuery.evhttp_parse_query
            (GET "/block?delay=250" 1)
            {| evbuffer_new_ok := true; malloc_ok := true; usleep_result := -1 |}
            (idle_world [1%nat])) = true.
Proof.
  assert (Hlive : req_id (GET "/block?delay=250" 1) ∈ requests (idle_world [1%nat]))
    by (apply live_in_idle; cbn; auto).
  destruct (blocking_sleep_must_complete PlainQuery.evhttp_parse_query
              {| evbuffer_new_ok := true; malloc_ok := true; usleep_result := -1 |}
              (GET "/block?delay=250" 1) (idle_world [1%nat]) Hlive)
    as (_ & _ & H & _).
  apply H; [reflexivity | reflexivity | cbn; discriminate].
Defined.

End Routes.

(* ===================================================================== *)
(** ** The delay handed to the timer and to [usleep]                      *)
(* ===================================================================== *)

Module Delay.
Import C Server Runs Serving Lifecycle.

Section WithParser.
Variable parse : string -> list evkeyval.

(** As long as [1000 * wait] fits an [int], the timer stands for exactly
    [wait] milliseconds. *)
Lemma delay_timer_exact r w :
  -2147483 <= requested_delay parse r <= 2147483 ->
  timeval_usec (timer_tv (delay_timer parse r w)) =
  1000 * requested_delay parse r.
Proof.
  intros H. unfold delay_timer, timeval_usec. cbn [timer_tv tv_sec tv_usec].
  rewrite CFacts.int_mul_exact; [lia|].
  unfold in_int, INT_MIN, INT_MAX. lia.
Qed.

Lemma delayed_response_cb_arms e r w :
  evbuffer_new_ok e = true -> malloc_ok e = true ->
  timers (world_of (delayed_response_cb parse r e w)) =
  timers w ++ [delay_timer parse r w].
Proof.
  intros Hb Hm. now rewrite delayed_response_cb_run by assumption.
Qed.

(** C9, amended: when the allocation of the holder fails, each delayed
    callback aborts on the assertion of [http_response_new]; no reply is
    sent and no timer is armed.  The result of [evbuffer_new] is not
    checked: when it fails no assertion fires, in any of the three
    callbacks, and the null buffer is handed to [evbuffer_add_printf]. *)
Theorem holder_allocation_failure_aborts
    (h : handler) (e : env) (r : evhttp_request) (w : world) :
  let o := serve parse h r e w in
  let evs := new_events w (world_of o) in
  let b := fresh (dom (evbuffers w)) in
  (h <> Null_response_cb ->
   evbuffer_new_ok e = true -> malloc_ok e = false ->
   aborts o = true /\
   replies evs = [] /\
   timers (world_of o) = timers w /\
   evs = [E_evbuffer_new (Some b);
          E_evbuffer_add_printf (Some b) (reply_text parse h r);
          E_malloc None;
          E_assert_fail "resp"]) /\
  (evbuffer_new_ok e = false ->
   aborts o = false /\
   returns o = false /\
   replies evs = [] /\
   evs = [E_evbuffer_new None;
          E_evbuffer_add_printf None (reply_text parse h r)]).
Proof.
  intros o evs b. subst evs o. split.
  - intros Hh Hb Hm. rewrite serve_no_memory by assumption.
    cbn [world_of aborts timers]. rewrite new_events_mk. repeat split.
  - intros Hb. rewrite serve_no_buffer by assumption.
    cbn [world_of aborts returns]. rewrite new_events_mk. repeat split.
Qed.

(** X16: a negative delay is not clamped.  When [atoi] of the value of
    the last accepted parameter is [d] with [-2147483 <= d < 0],
    [requested_delay] returns [d], both delayed callbacks answer
    "Waited -... ms" with the digits of [-d], the timer is armed with
    [tv_sec = 0] and the negative [tv_usec = 1000 * d], and [usleep] is
    called with the negative number [1000 * d]. *)
Theorem negative_delay_in_range_not_clamped
    (e : env) (r : evhttp_request) (w : world)
    (l1 : list evkeyval) (p : evkeyval) (l2 : list evkeyval) (d : Z) :
  parse (evhttp_request_uri r) = l1 ++ p :: l2 ->
  strncmp (key p) "delay" 5 = 0 ->
  (forall q, In q l2 -> strncmp (key q) "delay" 5 <> 0) ->
  atoi (value p) = d ->
  -2147483 <= d < 0 ->
  evbuffer_new_ok e = true -> malloc_ok e = true -> usleep_result e = 0 ->
  req_id r ∈ requests w ->
  let body := String.append "Waited -" (String.append (utoa (- d)) " ms") in
  requested_delay parse r = d /\
  replies (new_events w (world_of (serve parse Delayed_response_cb r e w))) =
    [(r, 200, body)] /\
  replies (new_events w (world_of (serve parse Blocking_response_cb r e w))) =
    [(r, 200, body)] /\
  IntPrefix.decimal_of (- d) (utoa (- d)) /\
  List.map timer_tv (timers (world_of (delayed_response_cb parse r e w))) =
    List.map timer_tv (timers w) ++ [{| tv_sec := 0; tv_usec := 1000 * d |}] /\
  In (E_usleep (1000 * d) 0)
     (new_events w (world_of (blocking_response_cb parse r e w))) /\
  1000 * d < 0.
Proof.
  intros Hparse Hkey Hl2 Hatoi Hd Hb Hm Hu Hr body.
  assert (E : requested_delay parse r = d).
  { unfold requested_delay, Query.requested_delay.
    rewrite Hparse, QueryFacts.foreach_param_last; [exact Hatoi | |].
    - rewrite <- CFacts.strncmp_delay. now apply Z.eqb_eq.
    - intros q Hq. rewrite <- CFacts.strncmp_delay. apply Z.eqb_neq, Hl2, Hq. }
  assert (Hw : waited parse r = body).
  { unfold waited. rewrite E, FmtFacts.sprintf_waited. unfold fmt_d.
    destruct (Z.ltb_spec d 0); [reflexivity|lia]. }
  assert (Hdec : IntPrefix.decimal_of (- d) (utoa (- d))).
  { pose proof (FmtFacts.fmt_d_decimal (- d)) as H. unfold fmt_d in H.
    destruct (Z.ltb_spec (- d) 0); [lia|exact H]. }
  assert (Hmul1 : int_mul 1000 d = 1000 * d)
    by (apply CFacts.int_mul_exact; unfold in_int, INT_MIN, INT_MAX; lia).
  assert (Hmul2 : int_mul d 1000 = 1000 * d)
    by (rewrite CFacts.int_mul_exact;
        [lia | unfold in_int, INT_MIN, INT_MAX; lia]).
  split; [exact E|].
  rewrite serve_delayed_run, serve_blocking_run by assumption.
  rewrite delayed_response_cb_run, blocking_response_cb_run by assumption.
  cbn [world_of timers]. rewrite !new_events_mk, Hw, E, Hmul2.
  split; [reflexivity|]. split; [reflexivity|]. split; [exact Hdec|].
  split; [|split; [cbn; tauto|lia]].
  rewrite List.map_app. unfold delay_timer. cbn [List.map timer_tv].
  now rewrite E, Hmul1.
Qed.

End WithParser.

(** C1, at the failing input: for the parsed delay 2147484 the callback
    arms its timer with [tv_usec = -2147483296], which is not the
    2147484000 microseconds that 2147484 ms are. *)
Theorem delayed_timer_wraps_at_2147484 :
  let r := GET "/delay?delay=2147484" 1 in
  let o := delayed_response_cb PlainQuery.evhttp_parse_query r env_ok
             (idle_world [1%nat]) in
  requested_delay PlainQuery.evhttp_parse_query r = 2147484 /\
  returns o = true /\
  armed_usec (world_of o) = [-2147483296] /\
  1000 * 2147484 = 2147484000.
Proof. vm_compute. repeat split. Qed.

(** C8, at the failing input: for the parsed delay 4294968 the blocking
    callback calls [usleep] with the [int] product 704, and when that
    sleep of 704 microseconds returns 0 it sends the reply
    "Waited 4294968 ms": a reply after a wait shorter than the
    4294968000 microseconds requested. *)
Theorem blocking_reply_after_short_sleep_at_4294968 :
  let r := GET "/block?delay=4294968" 1 in
  let o := blocking_response_cb PlainQuery.evhttp_parse_query r env_ok
             (idle_world [1%nat]) in
  requested_delay PlainQuery.evhttp_parse_query r = 4294968 /\
  returns o = true /\
  trace (world_of o) =
    [E_evbuffer_new (Some 0%nat);
     E_evbuffer_add_printf (Some 0%nat) "Waited 4294968 ms";
     E_malloc (Some 0%nat);
     E_usleep 704 0;
     E_evhttp_send_reply r 200 "OK" (Some 0%nat) "Waited 4294968 ms";
     E_evbuffer_free (Some 0%nat);
     E_free (Some 0%nat)] /\
  1000 * 4294968 = 4294968000 /\
  704 < 4294968000.
Proof. vm_compute. repeat split. Qed.

(** C9, as stated, fails: when [evbuffer_new] returns [NULL] the delayed
    callback does not abort on an assertion; it goes on to call
    [evbuffer_add_printf] with the null buffer. *)
Lemma buffer_allocation_failure_not_asserted :
  let e := {| evbuffer_new_ok := false; malloc_ok := true; usleep_result := 0 |} in
  let o := delayed_response_cb PlainQuery.evhttp_parse_query
             (GET "/delay?delay=250" 1) e (idle_world [1%nat]) in
  aborts o = false /\
  trace (world_of o) =
    [E_evbuffer_new None; E_evbuffer_add_printf None "Waited 250 ms"].
Proof. vm_compute. split; reflexivity. Qed.

(** C10, at the failing input: for the negative delay -2147484 the timer
    is armed with the positive [tv_usec = 2147483296] and [usleep] is
    called with that same positive number, not with the negative product
    -2147484000. *)
Lemma negative_delay_product_wraps :
  let r := GET "/delay?delay=-2147484" 1 in
  requested_delay PlainQuery.evhttp_parse_query r = -2147484 /\
  armed_usec (world_of (delayed_response_cb PlainQuery.evhttp_parse_query r
                          env_ok (idle_world [1%nat]))) = [2147483296] /\
  In (E_usleep 2147483296 0)
     (trace (world_of (blocking_response_cb PlainQuery.evhttp_parse_query r
                         env_ok (idle_world [1%nat])))) /\
  1000 * -2147484 = -2147484000.
Proof. vm_compute. repeat split. auto 10. Qed.

Lemma holder_allocation_failure_aborts_witness :
  aborts (serve PlainQuery.evhttp_parse_query Blocking_response_cb
            (GET "/block?delay=250" 1)
            {| evbuffer_new_ok := true; malloc_ok := false; usleep_result := 0 |}
            (idle_world [1%nat])) = true.
Proof.
  destruct (holder_allocation_failure_aborts PlainQuery.evhttp_parse_query
              Blocking_response_cb
              {| evbuffer_new_ok := true; malloc_ok := false; usleep_result := 0 |}
              (GET "/block?delay=250" 1) (idle_world [1%nat])) as (H & _).
  apply H; [discriminate | reflexivity | reflexivity].
Defined.

Lemma negative_delay_in_range_not_clamped_witness :
  requested_delay PlainQuery.evhttp_parse_query
    (GET "/delay?delay=4294967291" 1) = -5 /\
  replies (new_events (idle_world [1%nat])
             (world_of (serve PlainQuery.evhttp_parse_query Delayed_response_cb
                          (GET "/delay?delay=4294967291" 1) env_ok
                          (idle_world [1%nat])))) =
    [(GET "/delay?delay=4294967291" 1, 200, "Waited -5 ms"%string)].
Proof.
  assert (Hlive : req_id (GET "/delay?delay=4294967291" 1)
                    ∈ requests (idle_world [1%nat]))
    by (apply live_in_idle; cbn; auto).
  destruct (negative_delay_in_range_not_clamped PlainQuery.evhttp_parse_query
              env_ok (GET "/delay?delay=4294967291" 1) (idle_world [1%nat])
              [] {| key := "delay"; value := "4294967291" |} [] (-5)
              eq_refl eq_refl (fun q (H : In q []) => match H with end) eq_refl
              ltac:(lia) eq_refl eq_refl eq_refl Hlive)
    as (H1 & H2 & _).
  split; [exact H1 | exact H2].
Defined.

End Delay.

(* ===================================================================== *)
(** ** The holder: [http_response_new], [http_response_free],
       [send_response_cb]                                                 *)
(* ===================================================================== *)

Module Holder.
Import C Server Runs Serving.

(** X1: [http_response_new] never returns [NULL] and never faults: either
    [malloc] succeeded and the result points to a struct that was not
    live before and now holds exactly the given request and buffer, with
    every other struct, the evbuffers, the requests and the timers as
    they were; or [malloc] failed and the process aborts with nothing
    changed. *)
Theorem http_response_new_fresh_or_abort
    (e : env) (r : option evhttp_request) (b : ptr) (w : world) :
  match http_response_new r b e w with
  | Ret (Some p) w' =>
      malloc_ok e = true /\
      responses w !! p = None /\
      responses w' = <[p := {| req := r; buf := b |}]> (responses w) /\
      (forall q, q <> p -> responses w' !! q = responses w !! q) /\
      evbuffers w' = evbuffers w /\ requests w' = requests w /\
      timers w' = timers w /\
      trace w' = trace w ++ [E_malloc (Some p)]
  | Abort w' =>
      malloc_ok e = false /\
      same_resources w w' /\ requests w' = requests w /\
      trace w' = trace w ++ [E_malloc None; E_assert_fail "resp"]
  | Ret None _ => False
  | Fault _ => False
  end.
Proof.
  destruct (malloc_ok e) eqn:Hm.
  - rewrite http_response_new_run by exact Hm.
    unfold log, with_responses. cbn [evbuffers responses requests timers trace].
    repeat split; [apply fresh_response|].
    intros q Hq. now rewrite lookup_insert_ne.
  - rewrite http_response_new_no_memory by exact Hm.
    unfold log. cbn [evbuffers responses requests timers trace].
    rewrite <- app_assoc. repeat split.
Qed.

(** X2: [http_response_free] on a live struct releases what the struct
    names and then the struct: the request if [req] is not [NULL], the
    evbuffer if [buf] is not [NULL], in that order, and nothing else;
    a [NULL] field is skipped. *)
Theorem http_response_free_releases_fields
    (e : env) (p : nat) (oq : option evhttp_request) (ob : ptr) (w : world) :
  responses w !! p = Some {| req := oq; buf := ob |} ->
  (forall q, oq = Some q -> req_id q ∈ requests w) ->
  (forall b, ob = Some b -> is_Some (evbuffers w !! b)) ->
  http_response_free (Some p) e w =
  Ret tt
    {| evbuffers := match ob with
                    | Some b => delete b (evbuffers w)
                    | None => evbuffers w
                    end;
       responses := delete p (responses w);
       requests := match oq with
                   | Some q => requests w ∖ {[req_id q]}
                   | None => requests w
                   end;
       timers := timers w;
       trace := trace w ++
         match oq with Some q => [E_evhttp_request_free q] | None => [] end ++
         match ob with Some b => [E_evbuffer_free (Some b)] | None => [] end ++
         [E_free (Some p)] |}.
Proof.
  intros Hp Hq Hb.
  unfold http_response_free, bind, load. rewrite Hp. world_simpl.
  destruct oq as [q|]; destruct ob as [b|].
  - destruct (Hb b eq_refl) as [body Hbody].
    unfold evhttp_request_free. rewrite decide_True by (apply Hq; reflexivity).
    unfold evbuffer_free. world_simpl. rewrite Hbody.
    unfold free. world_simpl. rewrite Hp. world_eq.
  - unfold evhttp_request_free. rewrite decide_True by (apply Hq; reflexivity).
    unfold ret, free. world_simpl. rewrite Hp. world_eq.
  - destruct (Hb b eq_refl) as [body Hbody].
    unfold ret, evbuffer_free. world_simpl. rewrite Hbody.
    unfold free. world_simpl. rewrite Hp. world_eq.
  - unfold ret, free. world_simpl. rewrite Hp. world_eq.
Qed.

Lemma http_response_free_releases_fields_witness :
  returns (http_response_free (Some 0%nat) env_ok
             {| evbuffers := {[ 3%nat := "body"%string ]};
                responses := {[ 0%nat := {| req := None; buf := Some 3%nat |} ]};
                requests := ∅; timers := []; trace := [] |}) = true.
Proof.
  rewrite (http_response_free_releases_fields env_ok 0 None (Some 3%nat)).
  - reflexivity.
  - reflexivity.
  - intros q H. discriminate H.
  - intros b H. injection H as <-. exists "body"%string. reflexivity.
Defined.

(** X3: allocation followed by release composes to the release of the
    two resources alone: [http_response_new] and then
    [http_response_free] on its result leave the set of live structs
    exactly as it was, free the given request and evbuffer, and touch no
    timer. *)
Theorem http_response_new_then_free
    (e : env) (q : evhttp_request) (b : nat) (w : world) :
  malloc_ok e = true ->
  req_id q ∈ requests w ->
  is_Some (evbuffers w !! b) ->
  let p := fresh (dom (responses w)) in
  (resp <- http_response_new (Some q) (Some b) ;; http_response_free resp) e w =
  Ret tt {| evbuffers := delete b (evbuffers w);
            responses := responses w;
            requests := requests w ∖ {[req_id q]};
            timers := timers w;
            trace := trace w ++
              [E_malloc (Some p); E_evhttp_request_free q;
               E_evbuffer_free (Some b); E_free (Some p)] |}.
Proof.
  intros Hm Hq Hb p. unfold bind at 1.
  rewrite http_response_new_run by exact Hm. fold p.
  rewrite (http_response_free_releases_fields e p (Some q) (Some b)).
  - unfold log, with_responses. cbn [evbuffers responses requests timers trace].
    rewrite delete_insert_eq, (delete_id (responses w)) by apply fresh_response.
    rewrite <- app_assoc. reflexivity.
  - unfold log, with_responses. cbn [responses]. apply lookup_insert_eq.
  - intros q' H. injection H as <-. exact Hq.
  - intros b' H. injection H as <-. exact Hb.
Qed.

Lemma http_response_new_then_free_witness :
  returns ((resp <- http_response_new (Some (GET "/" 1)) (Some 3%nat) ;;
            http_response_free resp) env_ok
             {| evbuffers := {[ 3%nat := "body"%string ]};
                responses := ∅;
                requests := {[ 1%nat ]}; timers := []; trace := [] |}) = true.
Proof.
  rewrite (http_response_new_then_free env_ok (GET "/" 1) 3).
  - reflexivity.
  - reflexivity.
  - cbn. apply elem_of_singleton. reflexivity.
  - exists "body"%string. reflexivity.
Defined.

(** X4: [http_response_free] frees the request whenever [req] is not
    [NULL]: on a struct that still names a request that has already been
    answered it faults in [evhttp_request_free], before the evbuffer and
    the struct are released.  This is the double free the assignment
    [resp->req = NULL] in [send_response_cb] prevents. *)
Theorem http_response_free_answered_request_faults
    (e : env) (p : nat) (q : evhttp_request) (ob : ptr) (w : world) :
  responses w !! p = Some {| req := Some q; buf := ob |} ->
  req_id q ∉ requests w ->
  exists w',
    http_response_free (Some p) e w = Fault w' /\
    same_resources w w' /\
    trace w' = trace w ++ [E_evhttp_request_free q].
Proof.
  intros Hp Hq. eexists. split.
  - exact (http_response_free_answered_request e p q ob w Hp Hq).
  - unfold log. cbn [evbuffers responses requests timers trace]. repeat split.
Qed.

Lemma http_response_free_answered_request_faults_witness :
  returns (http_response_free (Some 0%nat) env_ok
             {| evbuffers := {[ 3%nat := EmptyString ]};
                responses :=
                  {[ 0%nat := {| req := Some (GET "/" 1); buf := Some 3%nat |} ]};
                requests := ∅; timers := []; trace := [] |}) = false.
Proof.
  destruct (http_response_free_answered_request_faults env_ok 0 (GET "/" 1)
              (Some 3%nat)
              {| evbuffers := {[ 3%nat := EmptyString ]};
                 responses :=
                   {[ 0%nat := {| req := Some (GET "/" 1); buf := Some 3%nat |} ]};
                 requests := ∅; timers := []; trace := [] |})
    as (w' & Hrun & _).
  - reflexivity.
  - cbn. apply not_elem_of_empty.
  - rewrite Hrun. reflexivity.
Defined.

(** X5: [send_response_cb] replies with status 200, reason "OK" and the
    contents of the held evbuffer, whatever [fd] and [type] are, and then
    releases that evbuffer and the struct; every other evbuffer, struct
    and request and all timers are left as they were. *)
Theorem send_response_cb_touches_only_its_own
    (e : env) (fd type : Z) (p : nat) (r : evhttp_request) (b : nat)
    (body : string) (w : world) :
  responses w !! p = Some {| req := Some r; buf := Some b |} ->
  evbuffers w !! b = Some body ->
  req_id r ∈ requests w ->
  exists w',
    send_response_cb fd type (Some p) e w = Ret tt w' /\
    trace w' = trace w ++
      [E_evhttp_send_reply r 200 "OK" (Some b) body;
       E_evbuffer_free (Some b); E_free (Some p)] /\
    evbuffers w' !! b = None /\ responses w' !! p = None /\
    (req_id r ∉ requests w') /\
    (forall b', b' <> b -> evbuffers w' !! b' = evbuffers w !! b') /\
    (forall p', p' <> p -> responses w' !! p' = responses w !! p') /\
    (forall i, i <> req_id r -> (i ∈ requests w' <-> i ∈ requests w)) /\
    timers w' = timers w.
Proof.
  intros Hp Hb Hr. eexists. split.
  - exact (send_response_cb_run e fd type p r b body w Hp Hb Hr).
  - cbn [evbuffers responses requests timers trace].
    split; [reflexivity|]. split; [apply lookup_delete_eq|].
    split; [apply lookup_delete_eq|]. split; [apply answered_not_live|].
    split; [intros b' Hb'; now rewrite lookup_delete_ne|].
    split; [intros p' Hp'; now rewrite lookup_delete_ne|].
    split; [|reflexivity].
    intros i Hi. rewrite elem_of_difference, elem_of_singleton. tauto.
Qed.

Lemma send_response_cb_touches_only_its_own_witness :
  returns (send_response_cb 7 0 (Some 0%nat) env_ok
             {| evbuffers := {[ 3%nat := "Waited 5 ms"%string ]};
                responses :=
                  {[ 0%nat := {| req := Some (GET "/delay?delay=5" 1);
                                 buf := Some 3%nat |} ]};
                requests := {[ 1%nat ]}; timers := []; trace := [] |}) = true.
Proof.
  destruct (send_response_cb_touches_only_its_own env_ok 7 0 0
              (GET "/delay?delay=5" 1) 3 "Waited 5 ms"
              {| evbuffers := {[ 3%nat := "Waited 5 ms"%string ]};
                 responses :=
                   {[ 0%nat := {| req := Some (GET "/delay?delay=5" 1);
                                  buf := Some 3%nat |} ]};
                 requests := {[ 1%nat ]}; timers := []; trace := [] |})
    as (w' & Hrun & _).
  - reflexivity.
  - reflexivity.
  - cbn. apply elem_of_singleton. reflexivity.
  - rewrite Hrun. reflexivity.
Defined.

End Holder.

(* ===================================================================== *)
(** ** Deferred delivery                                                  *)
(* ===================================================================== *)

Module Deferral.
Import C Server Runs Serving Lifecycle.

Lemma timeout_process_fires e i t w :
  timers w !! i = Some t ->
  timeout_process i e w =
  send_response_cb (timer_fd t) EV_TIMEOUT (timer_arg t) e
    (with_timers (delete i (timers w)) w).
Proof.
  intros H. unfold timeout_process. rewrite H. unfold fire_timer, run_callback.
  destruct (timer_cb t). reflexivity.
Qed.

Lemma fresh_after_insert {A} (m : gmap nat A) (k : nat) (x : A) :
  fresh (dom (<[k := x]> m)) <> k /\
  m !! fresh (dom (<[k := x]> m)) = None.
Proof.
  pose proof (is_fresh (dom (<[k := x]> m))) as H.
  apply not_elem_of_dom in H.
  assert (Hne : fresh (dom (<[k := x]> m)) <> k).
  { intros E. rewrite E, lookup_insert_eq in H. discriminate H. }
  split; [exact Hne|].
  rewrite lookup_insert_ne in H by auto. exact H.
Qed.

Lemma delete_before_last (ts : list timer) a b :
  delete (List.length ts) ((ts ++ [a]) ++ [b]) = ts ++ [b].
Proof.
  induction ts as [|t ts IH]; [reflexivity|].
  cbn [List.length app].
  change (delete (S (List.length ts)) (t :: ((ts ++ [a]) ++ [b])))
    with (t :: delete (List.length ts) ((ts ++ [a]) ++ [b])).
  now rewrite IH.
Qed.

Section WithParser.
Variable parse : string -> list evkeyval.

(** X6: [delayed_response_cb] only prepares the reply.  In every
    environment the callback itself sends no reply, never calls [usleep]
    and leaves the request unanswered.  When both allocations succeed it
    returns with exactly one more timer armed; the timer's callback is
    [send_response_cb] and its argument points to a struct that holds the
    request and an evbuffer whose contents are the text. *)
Theorem delayed_response_cb_only_prepares
    (e : env) (r : evhttp_request) (w : world) :
  let o := delayed_response_cb parse r e w in
  let evs := new_events w (world_of o) in
  replies evs = [] /\
  (forall usec res, ~ In (E_usleep usec res) evs) /\
  requests (world_of o) = requests w /\
  (evbuffer_new_ok e = true -> malloc_ok e = true ->
   exists t p b,
     returns o = true /\
     timers (world_of o) = timers w ++ [t] /\
     timer_cb t = Send_response_cb /\ timer_fd t = -1 /\
     timer_events t = EV_TIMEOUT /\ timer_arg t = Some p /\
     responses (world_of o) !! p = Some {| req := Some r; buf := Some b |} /\
     evbuffers (world_of o) !! b = Some (waited parse r) /\
     responses w !! p = None /\ evbuffers w !! b = None).
Proof.
  intros o evs. subst o evs.
  destruct (evbuffer_new_ok e) eqn:Hb; [destruct (malloc_ok e) eqn:Hm|].
  - rewrite delayed_response_cb_run by assumption.
    cbn [world_of returns]. rewrite new_events_mk.
    cbn [evbuffers responses requests timers].
    split; [reflexivity|]. split.
    { intros usec res [H|[H|[H|[H|[]]]]]; discriminate H. }
    split; [reflexivity|]. intros _ _.
    exists (delay_timer parse r w), (fresh (dom (responses w))),
           (fresh (dom (evbuffers w))).
    rewrite !lookup_insert_eq.
    repeat split; [apply fresh_response | apply fresh_evbuffer].
  - rewrite delayed_response_cb_no_memory by assumption.
    cbn [world_of]. rewrite new_events_mk. cbn [requests].
    split; [reflexivity|]. split.
    { intros usec res [H|[H|[H|[H|[]]]]]; discriminate H. }
    split; [reflexivity|]. intros _ H. discriminate H.
  - rewrite delayed_response_cb_no_buffer by assumption.
    cbn [world_of]. rewrite new_events_mk. cbn [requests].
    split; [reflexivity|]. split.
    { intros usec res [H|[H|[]]]; discriminate H. }
    split; [reflexivity|]. intros H. discriminate H.
Qed.

(** X7: the timeval [delayed_response_cb] arms always has [tv_sec = 0].
    While [1000 * wait] fits an [int] it stands for exactly [wait]
    milliseconds, so from one second on it is not normalised:
    [tv_usec >= 1000000]. *)
Theorem delay_timeval_exact_but_not_normalised
    (e : env) (r : evhttp_request) (w : world) :
  evbuffer_new_ok e = true -> malloc_ok e = true ->
  let d := requested_delay parse r in
  exists t,
    timers (world_of (delayed_response_cb parse r e w)) = timers w ++ [t] /\
    tv_sec (timer_tv t) = 0 /\
    (-2147483 <= d <= 2147483 -> timeval_usec (timer_tv t) = 1000 * d) /\
    (1000 <= d <= 2147483 -> 1000000 <= tv_usec (timer_tv t)).
Proof.
  intros Hb Hm d. exists (delay_timer parse r w).
  rewrite delayed_response_cb_run by assumption. cbn [world_of timers].
  split; [reflexivity|]. split; [reflexivity|].
  unfold delay_timer, timeval_usec. cbn [timer_tv tv_sec tv_usec]. fold d.
  split; intros Hd; rewrite CFacts.int_mul_exact;
    unfold in_int, INT_MIN, INT_MAX; lia.
Qed.

(** X8: two delayed requests in flight do not disturb each other.  After
    both callbacks have run, the two timers may expire in either order:
    each request gets exactly its own reply, in the order of expiry, and
    afterwards no evbuffer, struct or timer of either is left. *)
Theorem delayed_requests_are_independent
    (e : env) (r1 r2 : evhttp_request) (w : world) :
  evbuffer_new_ok e = true -> malloc_ok e = true ->
  req_id r1 ∈ requests w -> req_id r2 ∈ requests w ->
  req_id r1 <> req_id r2 ->
  let n := List.length (timers w) in
  let arrive := (delayed_response_cb parse r1 ;;; delayed_response_cb parse r2) in
  let first_then_second :=
    (arrive ;;; timeout_process n ;;; timeout_process n) e w in
  let second_then_first :=
    (arrive ;;; timeout_process (S n) ;;; timeout_process n) e w in
  returns first_then_second = true /\
  returns second_then_first = true /\
  replies (new_events w (world_of first_then_second)) =
    [(r1, 200, waited parse r1); (r2, 200, waited parse r2)] /\
  replies (new_events w (world_of second_then_first)) =
    [(r2, 200, waited parse r2); (r1, 200, waited parse r1)] /\
  same_resources w (world_of first_then_second) /\
  same_resources w (world_of second_then_first) /\
  requests (world_of first_then_second) =
    requests (world_of second_then_first).
Proof.
  intros Hb Hm Hr1 Hr2 Hne n arrive o12 o21.
  set (b1 := fresh (dom (evbuffers w))).
  set (p1 := fresh (dom (responses w))).
  set (t1 := delay_timer parse r1 w).
  set (w1 := {| evbuffers := <[b1 := waited parse r1]> (evbuffers w);
                responses := <[p1 := {| req := Some r1; buf := Some b1 |}]> (responses w);
                requests := requests w;
                timers := timers w ++ [t1];
                trace := trace w ++
                  [E_evbuffer_new (Some b1);
                   E_evbuffer_add_printf (Some b1) (waited parse r1);
                   E_malloc (Some p1); E_event_once t1] |}).
  set (b2 := fresh (dom (evbuffers w1))).
  set (p2 := fresh (dom (responses w1))).
  set (t2 := delay_timer parse r2 w1).
  destruct (fresh_after_insert (evbuffers w) b1 (waited parse r1)) as [Hb21 Hb2].
  destruct (fresh_after_insert (responses w) p1 {| req := Some r1; buf := Some b1 |})
    as [Hp21 Hp2].
  fold b2 in Hb21, Hb2. fold p2 in Hp21, Hp2.
  assert (Hb1 : evbuffers w !! b1 = None) by apply fresh_evbuffer.
  assert (Hp1 : responses w !! p1 = None) by apply fresh_response.
  assert (Harrive : arrive e w =
    Ret tt {| evbuffers := <[b2 := waited parse r2]> (evbuffers w1);
              responses := <[p2 := {| req := Some r2; buf := Some b2 |}]> (responses w1);
              requests := requests w;
              timers := (timers w ++ [t1]) ++ [t2];
              trace := trace w1 ++
                [E_evbuffer_new (Some b2);
                 E_evbuffer_add_printf (Some b2) (waited parse r2);
                 E_malloc (Some p2); E_event_once t2] |}).
  { subst arrive. unfold bind.
    rewrite (delayed_response_cb_run parse e r1 w Hb Hm).
    fold b1 p1 t1 w1.
    rewrite (delayed_response_cb_run parse e r2 w1 Hb Hm). reflexivity. }
  assert (Hlen : List.length (timers w ++ [t1]) = S n)
    by (rewrite List.length_app; cbn; subst n; lia).
  (* the first timer expires first *)
  assert (H12 : o12 =
    Ret tt {| evbuffers := evbuffers w; responses := responses w;
              requests := (requests w ∖ {[req_id r1]}) ∖ {[req_id r2]};
              timers := timers w;
              trace := trace w ++
                [E_evbuffer_new (Some b1);
                 E_evbuffer_add_printf (Some b1) (waited parse r1);
                 E_malloc (Some p1); E_event_once t1;
                 E_evbuffer_new (Some b2);
                 E_evbuffer_add_printf (Some b2) (waited parse r2);
                 E_malloc (Some p2); E_event_once t2;
                 E_evhttp_send_reply r1 200 "OK" (Some b1) (waited parse r1);
                 E_evbuffer_free (Some b1); E_free (Some p1);
                 E_evhttp_send_reply r2 200 "OK" (Some b2) (waited parse r2);
                 E_evbuffer_free (Some b2); E_free (Some p2)] |}).
  { subst o12. unfold bind at 1 2. rewrite Harrive.
    rewrite (timeout_process_fires e n t1).
    2:{ cbn [timers]. rewrite <- app_assoc. subst n.
        rewrite lookup_app_r, Nat.sub_diag by lia. reflexivity. }
    unfold with_timers. cbn [evbuffers responses requests timers trace].
    change (delete n ((timers w ++ [t1]) ++ [t2]))
      with (delete (List.length (timers w)) ((timers w ++ [t1]) ++ [t2])).
    rewrite delete_before_last.
    erewrite (send_response_cb_run e _ _ p1 r1 b1 (waited parse r1));
      cbn [evbuffers responses requests timers trace];
      [ | rewrite lookup_insert_ne by auto; apply lookup_insert_eq
        | rewrite lookup_insert_ne by auto; apply lookup_insert_eq
        | exact Hr1 ].
    rewrite (timeout_process_fires e n t2).
    2:{ cbn [timers]. subst n. rewrite lookup_app_r, Nat.sub_diag by lia.
        reflexivity. }
    unfold with_timers. cbn [evbuffers responses requests timers trace].
    unfold n. rewrite delete_appended.
    erewrite (send_response_cb_run e _ _ p2 r2 b2 (waited parse r2));
      cbn [evbuffers responses requests timers trace];
      [ | rewrite lookup_delete_ne by auto; apply lookup_insert_eq
        | rewrite lookup_delete_ne by auto; apply lookup_insert_eq
        | apply elem_of_difference; split; [exact Hr2|];
          rewrite elem_of_singleton; congruence ].
    subst w1. cbn [evbuffers responses trace].
    rewrite (delete_insert_ne _ b1 b2) by auto.
    rewrite (delete_insert_ne _ p1 p2) by auto.
    rewrite !delete_insert_eq.
    rewrite (delete_id (evbuffers w) b1), (delete_id (responses w) p1) by assumption.
    rewrite (delete_id (evbuffers w) b2), (delete_id (responses w) p2) by assumption.
    rewrite <- !app_assoc. reflexivity. }
  (* the second timer expires first *)
  assert (H21 : o21 =
    Ret tt {| evbuffers := evbuffers w; responses := responses w;
              requests := (requests w ∖ {[req_id r2]}) ∖ {[req_id r1]};
              timers := timers w;
              trace := trace w ++
                [E_evbuffer_new (Some b1);
                 E_evbuffer_add_printf (Some b1) (waited parse r1);
                 E_malloc (Some p1); E_event_once t1;
                 E_evbuffer_new (Some b2);
                 E_evbuffer_add_printf (Some b2) (waited parse r2);
                 E_malloc (Some p2); E_event_once t2;
                 E_evhttp_send_reply r2 200 "OK" (Some b2) (waited parse r2);
                 E_evbuffer_free (Some b2); E_free (Some p2);
                 E_evhttp_send_reply r1 200 "OK" (Some b1) (waited parse r1);
                 E_evbuffer_free (Some b1); E_free (Some p1)] |}).
  { subst o21. unfold bind at 1 2. rewrite Harrive.
    rewrite (timeout_process_fires e (S n) t2).
    2:{ cbn [timers]. rewrite <- Hlen.
        rewrite lookup_app_r, Nat.sub_diag by lia. reflexivity. }
    unfold with_timers. cbn [evbuffers responses requests timers trace].
    rewrite <- Hlen, delete_appended.
    erewrite (send_response_cb_run e _ _ p2 r2 b2 (waited parse r2));
      cbn [evbuffers responses requests timers trace];
      [ | apply lookup_insert_eq | apply lookup_insert_eq | exact Hr2 ].
    rewrite (timeout_process_fires e n t1).
    2:{ cbn [timers]. subst n. rewrite lookup_app_r, Nat.sub_diag by lia.
        reflexivity. }
    unfold with_timers. cbn [evbuffers responses requests timers trace].
    unfold n. rewrite delete_appended.
    rewrite !delete_insert_eq.
    subst w1. cbn [evbuffers responses trace].
    rewrite (delete_id (<[b1 := _]> (evbuffers w)) b2)
      by (rewrite lookup_insert_ne by auto; assumption).
    rewrite (delete_id (<[p1 := _]> (responses w)) p2)
      by (rewrite lookup_insert_ne by auto; assumption).
    erewrite (send_response_cb_run e _ _ p1 r1 b1 (waited parse r1));
      cbn [evbuffers responses requests timers trace];
      [ | apply lookup_insert_eq | apply lookup_insert_eq
        | apply elem_of_difference; split; [exact Hr1|];
          rewrite elem_of_singleton; congruence ].
    rewrite !delete_insert_eq.
    rewrite (delete_id (evbuffers w) b1), (delete_id (responses w) p1) by assumption.
    rewrite <- !app_assoc. reflexivity. }
  rewrite H12, H21. cbn [world_of returns requests]. rewrite !new_events_mk.
  split; [reflexivity|]. split; [reflexivity|].
  split; [reflexivity|]. split; [reflexivity|].
  split; [repeat split|]. split; [repeat split|].
  apply set_eq. intros i. rewrite !elem_of_difference. tauto.
Qed.

End WithParser.

Lemma delayed_response_cb_only_prepares_witness :
  timers (world_of (delayed_response_cb PlainQuery.evhttp_parse_query
                      (GET "/delay?delay=40" 1) env_ok (idle_world [1%nat]))) <> [].
Proof.
  destruct (delayed_response_cb_only_prepares PlainQuery.evhttp_parse_query
              env_ok (GET "/delay?delay=40" 1) (idle_world [1%nat]))
    as (_ & _ & _ & H).
  destruct (H eq_refl eq_refl) as (t & p & b & _ & Ht & _).
  rewrite Ht. cbn. discriminate.
Defined.

Lemma delay_timeval_exact_but_not_normalised_witness :
  armed_usec (world_of (delayed_response_cb PlainQuery.evhttp_parse_query
                          (GET "/delay?delay=2500" 1) env_ok
                          (idle_world [1%nat]))) = [2500000].
Proof.
  destruct (delay_timeval_exact_but_not_normalised PlainQuery.evhttp_parse_query
              env_ok (GET "/delay?delay=2500" 1) (idle_world [1%nat])
              eq_refl eq_refl) as (t & Ht & _ & Hexact & _).
  unfold armed_usec. rewrite Ht. cbn [idle_world timers app List.map].
  rewrite Hexact; [reflexivity|].
  change (requested_delay PlainQuery.evhttp_parse_query (GET "/delay?delay=2500" 1))
    with 2500. lia.
Defined.

Lemma delayed_requests_are_independent_witness :
  replies
    (new_events (idle_world [1; 2]%nat)
       (world_of
          ((delayed_response_cb PlainQuery.evhttp_parse_query
              (GET "/delay?delay=500" 1) ;;;
            delayed_response_cb PlainQuery.evhttp_parse_query
              (GET "/delay?delay=20" 2) ;;;
            timeout_process 1 ;;; timeout_process 0)
             env_ok (idle_world [1; 2]%nat)))) =
  [(GET "/delay?delay=20" 2, 200, "Waited 20 ms"%string);
   (GET "/delay?delay=500" 1, 200, "Waited 500 ms"%string)].
Proof.
  apply (delayed_requests_are_independent PlainQuery.evhttp_parse_query env_ok
           (GET "/delay?delay=500" 1) (GET "/delay?delay=20" 2)
           (idle_world [1; 2]%nat)).
  - reflexivity.
  - reflexivity.
  - apply live_in_idle; cbn; auto.
  - apply live_in_idle; cbn; auto.
  - cbn. discriminate.
Defined.

End Deferral.

(* ===================================================================== *)
(** ** From the query to the reply                                        *)
(* ===================================================================== *)

Module Parameters.
Import C Server Runs Serving Lifecycle.

(** X9: the test of the loop in [requested_delay],
    [strncmp(key, "delay", 5) == 0], accepts exactly the keys that begin
    with the five characters of "delay", compared case-sensitively;
    what follows them in the key is not looked at. *)
Theorem key_accepted_iff_begins_with_delay (k : string) :
  strncmp k "delay" 5 = 0 <->
  exists rest : string, k = String.append "delay" rest.
Proof.
  rewrite <- CFacts.has_delay_prefix_split, <- CFacts.strncmp_delay.
  symmetry. apply Z.eqb_eq.
Qed.

Lemma foreach_param_snoc l p w :
  Query.foreach_param (l ++ [p]) w =
  if strncmp (key p) "delay" 5 =? 0 then atoi (value p)
  else Query.foreach_param l w.
Proof. rewrite QueryFacts.foreach_param_app. reflexivity. Qed.

Section WithParser.
Variable parse : string -> list evkeyval.

(** X10: [requested_delay] in closed form: among the parsed parameters
    only those whose key passes the [strncmp] test count; the result is
    [atoi] of the value of the last of them, and 0 when there is none.
    Parameters with other keys never change the result, wherever they
    stand. *)
Theorem requested_delay_is_last_accepted (r : evhttp_request) :
  let accepted :=
    List.filter (fun p => strncmp (key p) "delay" 5 =? 0)
                (parse (evhttp_request_uri r)) in
  requested_delay parse r =
  match last accepted with
  | Some p => atoi (value p)
  | None => 0
  end.
Proof.
  unfold requested_delay, Query.requested_delay.
  generalize (parse (evhttp_request_uri r)) as l. cbv zeta.
  induction l as [|p l IH] using rev_ind; [reflexivity|].
  rewrite foreach_param_snoc, List.filter_app. cbn [List.filter].
  destruct (strncmp (key p) "delay" 5 =? 0).
  - now rewrite last_snoc.
  - now rewrite app_nil_r.
Qed.

(** X11: a request none of whose parameter keys begins with "delay" is
    waited for zero: both delayed callbacks answer "Waited 0 ms", the
    timer is armed with a zero timeval and [usleep] is called with 0. *)
Theorem no_delay_parameter_waits_zero
    (e : env) (r : evhttp_request) (w : world) :
  (forall q, In q (parse (evhttp_request_uri r)) ->
             strncmp (key q) "delay" 5 <> 0) ->
  evbuffer_new_ok e = true -> malloc_ok e = true -> usleep_result e = 0 ->
  req_id r ∈ requests w ->
  replies (new_events w (world_of (serve parse Delayed_response_cb r e w))) =
    [(r, 200, "Waited 0 ms"%string)] /\
  replies (new_events w (world_of (serve parse Blocking_response_cb r e w))) =
    [(r, 200, "Waited 0 ms"%string)] /\
  List.map timer_tv (timers (world_of (delayed_response_cb parse r e w))) =
    List.map timer_tv (timers w) ++ [{| tv_sec := 0; tv_usec := 0 |}] /\
  In (E_usleep 0 0)
     (new_events w (world_of (blocking_response_cb parse r e w))).
Proof.
  intros Hnone Hb Hm Hu Hr.
  assert (E : requested_delay parse r = 0).
  { apply QueryFacts.foreach_param_skip. intros q Hq.
    rewrite <- CFacts.strncmp_delay. apply Z.eqb_neq, Hnone, Hq. }
  assert (Hw : waited parse r = "Waited 0 ms"%string)
    by (unfold waited; rewrite E; reflexivity).
  rewrite serve_delayed_run, serve_blocking_run by assumption.
  rewrite delayed_response_cb_run, blocking_response_cb_run by assumption.
  cbn [world_of timers]. rewrite !new_events_mk, Hw, E.
  repeat split.
  - rewrite List.map_app. unfold delay_timer. cbn [List.map timer_tv].
    now rewrite E.
  - cbn. tauto.
Qed.

(** X12: from the query to the wait, for delays that fit: when the value
    of the last accepted parameter starts with the integer [d] and
    [0 <= d <= 2147483], both delayed callbacks answer "Waited d ms"
    with [d] in decimal, the timer stands for exactly [1000 * d]
    microseconds and [usleep] is called with [1000 * d]. *)
Theorem delay_in_range_is_waited_exactly
    (e : env) (r : evhttp_request) (w : world)
    (l1 : list evkeyval) (p : evkeyval) (l2 : list evkeyval) (d : Z) :
  parse (evhttp_request_uri r) = l1 ++ p :: l2 ->
  strncmp (key p) "delay" 5 = 0 ->
  (forall q, In q l2 -> strncmp (key q) "delay" 5 <> 0) ->
  IntPrefix.int_prefix (value p) = Some d ->
  0 <= d <= 2147483 ->
  evbuffer_new_ok e = true -> malloc_ok e = true -> usleep_result e = 0 ->
  req_id r ∈ requests w ->
  let body := String.append "Waited " (String.append (utoa d) " ms") in
  replies (new_events w (world_of (serve parse Delayed_response_cb r e w))) =
    [(r, 200, body)] /\
  replies (new_events w (world_of (serve parse Blocking_response_cb r e w))) =
    [(r, 200, body)] /\
  IntPrefix.decimal_of d (utoa d) /\
  List.map (fun t => timeval_usec (timer_tv t))
           (timers (world_of (delayed_response_cb parse r e w))) =
    armed_usec w ++ [1000 * d] /\
  In (E_usleep (1000 * d) 0)
     (new_events w (world_of (blocking_response_cb parse r e w))).
Proof.
  intros Hparse Hkey Hl2 Hpre Hd Hb Hm Hu Hr body.
  assert (E : requested_delay parse r = d).
  { unfold requested_delay, Query.requested_delay.
    rewrite Hparse, QueryFacts.foreach_param_last.
    - apply CFacts.atoi_prefix_value; [exact Hpre|].
      unfold in_int, INT_MIN, INT_MAX. lia.
    - rewrite <- CFacts.strncmp_delay. now apply Z.eqb_eq.
    - intros q Hq. rewrite <- CFacts.strncmp_delay. apply Z.eqb_neq, Hl2, Hq. }
  assert (Hfmt : fmt_d d = utoa d).
  { unfold fmt_d. destruct (Z.ltb_spec d 0); [lia|reflexivity]. }
  assert (Hw : waited parse r = body).
  { unfold waited. now rewrite E, FmtFacts.sprintf_waited, Hfmt. }
  assert (Hmul1 : int_mul 1000 d = 1000 * d)
    by (apply CFacts.int_mul_exact; unfold in_int, INT_MIN, INT_MAX; lia).
  assert (Hmul2 : int_mul d 1000 = 1000 * d)
    by (rewrite CFacts.int_mul_exact;
        [lia | unfold in_int, INT_MIN, INT_MAX; lia]).
  rewrite serve_delayed_run, serve_blocking_run by assumption.
  rewrite delayed_response_cb_run, blocking_response_cb_run by assumption.
  cbn [world_of timers]. rewrite !new_events_mk, Hw, E, Hmul2.
  split; [reflexivity|]. split; [reflexivity|].
  split; [rewrite <- Hfmt; apply FmtFacts.fmt_d_decimal|].
  split; [|cbn; tauto].
  rewrite List.map_app. unfold delay_timer, timeval_usec, armed_usec.
  cbn [List.map timer_tv tv_sec tv_usec]. rewrite E, Hmul1.
  f_equal.
Qed.

(** X13: [blocking_response_cb] never arms a timer, in any environment,
    and whenever it replies, the call of [usleep] that returned 0 is the
    call directly before the reply: the whole wait lies inside the
    callback. *)
Theorem blocking_response_cb_waits_inside
    (e : env) (r : evhttp_request) (w : world) :
  req_id r ∈ requests w ->
  let o := blocking_response_cb parse r e w in
  let evs := new_events w (world_of o) in
  timers (world_of o) = timers w /\
  count is_event_once evs = 0%nat /\
  (replies evs <> [] ->
   exists before b after,
     evs = before ++
           E_usleep (int_mul (requested_delay parse r) 1000) 0 ::
           E_evhttp_send_reply r 200 "OK" b (waited parse r) :: after /\
     replies before = [] /\ replies after = []).
Proof.
  intros Hr o evs. subst o evs.
  destruct (evbuffer_new_ok e) eqn:Hb; [destruct (malloc_ok e) eqn:Hm|].
  - destruct (Z.eq_dec (usleep_result e) 0) as [Hu|Hu].
    + rewrite blocking_response_cb_run by assumption.
      cbn [world_of timers]. rewrite new_events_mk.
      split; [reflexivity|]. split; [reflexivity|]. intros _.
      eexists [_; _; _], _, [_; _]. repeat split.
    + rewrite blocking_response_cb_interrupted by assumption.
      cbn [world_of timers]. rewrite new_events_mk.
      split; [reflexivity|]. split; [reflexivity|].
      intros H. contradiction H. reflexivity.
  - rewrite blocking_response_cb_no_memory by assumption.
    cbn [world_of timers]. rewrite new_events_mk.
    split; [reflexivity|]. split; [reflexivity|].
    intros H. contradiction H. reflexivity.
  - rewrite blocking_response_cb_no_buffer by assumption.
    cbn [world_of timers]. rewrite new_events_mk.
    split; [reflexivity|]. split; [reflexivity|].
    intros H. contradiction H. reflexivity.
Qed.

Lemma reply_of_served h r w b p :
  replies (events_before_reply parse h r w b p ++
           E_evhttp_send_reply r 200 "OK" (Some b) (reply_text parse h r) ::
           events_after_reply h b p) = [(r, 200, reply_text parse h r)].
Proof.
  rewrite replies_app. cbn [replies].
  destruct (no_reply_before parse h r w b p) as (_ & _ & ->).
  destruct (no_reply_after h b p) as (_ & _ & ->). reflexivity.
Qed.

Lemma serve_all_routed e rs : forall w,
  evbuffer_new_ok e = true -> malloc_ok e = true -> usleep_result e = 0 ->
  (forall r, In r rs ->
     is_Some (find_callback (request_path r) main_callbacks)) ->
  NoDup (List.map req_id rs) ->
  (forall r, In r rs -> req_id r ∈ requests w) ->
  exists w' evs,
    serve_all parse rs e w = Ret tt w' /\
    trace w' = trace w ++ evs /\
    replies evs =
      List.map
        (fun r =>
           (r, 200,
            match find_callback (request_path r) main_callbacks with
            | Some h => reply_text parse h r
            | None => EmptyString
            end)) rs /\
    same_resources w w' /\
    (forall i, (i ∈ requests w') <->
               (i ∈ requests w) /\ ~ In i (List.map req_id rs)).
Proof.
  induction rs as [|r rs IH]; intros w Hb Hm Hu Hroute Hnd Hlive.
  - exists w, []. cbn [serve_all List.map]. unfold ret. rewrite app_nil_r.
    repeat split; tauto.
  - cbn [serve_all]. unfold bind at 1, serve_request.
    destruct (Hroute r (or_introl eq_refl)) as [h Hh]. rewrite Hh.
    rewrite serve_done by (auto; apply Hlive; now left).
    set (b := fresh (dom (evbuffers w))). set (p := fresh (dom (responses w))).
    set (w1 := {| evbuffers := evbuffers w |}).
    cbn [List.map] in Hnd. apply NoDup_cons in Hnd as [Hnotin Hnd].
    assert (Hlive1 : forall q, In q rs -> req_id q ∈ requests w1).
    { intros q Hq. subst w1. cbn [requests].
      apply elem_of_difference. split; [apply Hlive; now right|].
      intros Heq. apply elem_of_singleton in Heq.
      apply Hnotin. rewrite <- Heq. apply list_elem_of_In.
      apply List.in_map_iff. exists q. split; [reflexivity|exact Hq]. }
    destruct (IH w1 Hb Hm Hu (fun q Hq => Hroute q (or_intror Hq)) Hnd Hlive1)
      as (w' & evs & Hrun & Htr & Hrep & Hsame & Hreq).
    exists w'.
    exists ((events_before_reply parse h r w b p ++
             E_evhttp_send_reply r 200 "OK" (Some b) (reply_text parse h r) ::
             events_after_reply h b p) ++ evs).
    split; [exact Hrun|]. split.
    { rewrite Htr. subst w1. cbn [trace]. now rewrite <- app_assoc. }
    split.
    { rewrite replies_app, reply_of_served, Hrep. cbn [List.map app].
      now rewrite Hh. }
    split.
    { destruct Hsame as (A & B & C). subst w1.
      cbn [evbuffers responses timers] in A, B, C. repeat split; assumption. }
    intros i. rewrite Hreq. subst w1. cbn [requests List.map].
    rewrite elem_of_difference, elem_of_singleton. cbn [In].
    split.
    + intros [[Hi Hne] Hnin]. split; [exact Hi|].
      intros [E|E]; [congruence|contradiction].
    + intros [Hi Hnin]. split; [split; [exact Hi|]|].
      * intros E. apply Hnin. left. congruence.
      * intros E. apply Hnin. now right.
Qed.

(** X14: the server comes back to rest.  When nothing fails, any
    sequence of distinct live requests to the three registered paths,
    served one after the other, returns; every request is answered once,
    in order, with status 200 and the text of its route; afterwards the
    evbuffers, structs and timers are those the server started with and
    none of the requests is live. *)
Theorem server_returns_to_rest
    (e : env) (rs : list evhttp_request) (w : world) :
  evbuffer_new_ok e = true -> malloc_ok e = true -> usleep_result e = 0 ->
  (forall r, In r rs ->
     is_Some (find_callback (request_path r) main_callbacks)) ->
  NoDup (List.map req_id rs) ->
  (forall r, In r rs -> req_id r ∈ requests w) ->
  let o := serve_all parse rs e w in
  returns o = true /\
  replies (new_events w (world_of o)) =
    List.map
      (fun r =>
         (r, 200,
          match find_callback (request_path r) main_callbacks with
          | Some h => reply_text parse h r
          | None => EmptyString
          end)) rs /\
  same_resources w (world_of o) /\
  (forall i, (i ∈ requests (world_of o)) <->
             (i ∈ requests w) /\ ~ In i (List.map req_id rs)).
Proof.
  intros Hb Hm Hu Hroute Hnd Hlive o.
  destruct (serve_all_routed e rs w Hb Hm Hu Hroute Hnd Hlive)
    as (w' & evs & Hrun & Htr & Hrep & Hsame & Hreq).
  subst o. rewrite Hrun. cbn [world_of returns].
  rewrite (new_events_app _ _ _ Htr). auto.
Qed.

End WithParser.

Lemma no_delay_parameter_waits_zero_witness :
  replies (new_events (idle_world [1%nat])
             (world_of (serve PlainQuery.evhttp_parse_query Delayed_response_cb
                          (GET "/delay?Delay=5&wait=9" 1) env_ok
                          (idle_world [1%nat])))) =
    [(GET "/delay?Delay=5&wait=9" 1, 200, "Waited 0 ms"%string)].
Proof.
  apply (no_delay_parameter_waits_zero PlainQuery.evhttp_parse_query env_ok
           (GET "/delay?Delay=5&wait=9" 1) (idle_world [1%nat])).
  - intros q [<-|[<-|[]]]; vm_compute; discriminate.
  - reflexivity.
  - reflexivity.
  - reflexivity.
  - apply live_in_idle; cbn; auto.
Defined.

Lemma delay_in_range_is_waited_exactly_witness :
  replies (new_events (idle_world [1%nat])
             (world_of (serve PlainQuery.evhttp_parse_query Delayed_response_cb
                          (GET "/delay?delay=7&x=1&delay=1500ms" 1) env_ok
                          (idle_world [1%nat])))) =
    [(GET "/delay?delay=7&x=1&delay=1500ms" 1, 200, "Waited 1500 ms"%string)].
Proof.
  apply (delay_in_range_is_waited_exactly PlainQuery.evhttp_parse_query env_ok
           (GET "/delay?delay=7&x=1&delay=1500ms" 1) (idle_world [1%nat])
           [{| key := "delay"; value := "7" |}; {| key := "x"; value := "1" |}]
           {| key := "delay"; value := "1500ms" |} [] 1500).
  - reflexivity.
  - reflexivity.
  - intros q [].
  - reflexivity.
  - lia.
  - reflexivity.
  - reflexivity.
  - reflexivity.
  - apply live_in_idle; cbn; auto.
Defined.

Lemma blocking_response_cb_waits_inside_witness :
  timers (world_of (blocking_response_cb PlainQuery.evhttp_parse_query
                      (GET "/block?delay=3" 1) env_ok (idle_world [1%nat]))) = [].
Proof.
  apply (blocking_response_cb_waits_inside PlainQuery.evhttp_parse_query env_ok
           (GET "/block?delay=3" 1) (idle_world [1%nat])).
  apply live_in_idle; cbn; auto.
Defined.

Lemma server_returns_to_rest_witness :
  replies
    (new_events (idle_world [1; 2; 3]%nat)
       (world_of (serve_all PlainQuery.evhttp_parse_query
                    [GET "/block?delay=2" 1; GET "/" 2; GET "/delay?delay=30" 3]
                    env_ok (idle_world [1; 2; 3]%nat)))) =
  [(GET "/block?delay=2" 1, 200, "Waited 2 ms"%string);
   (GET "/" 2, 200, "OK"%string);
   (GET "/delay?delay=30" 3, 200, "Waited 30 ms"%string)].
Proof.
  apply (server_returns_to_rest PlainQuery.evhttp_parse_query env_ok
           [GET "/block?delay=2" 1; GET "/" 2; GET "/delay?delay=30" 3]
           (idle_world [1; 2; 3]%nat)).
  - reflexivity.
  - reflexivity.
  - reflexivity.
  - intros r [<-|[<-|[<-|[]]]]; eexists; reflexivity.
  - apply (bool_decide_unpack _). vm_compute. reflexivity.
  - intros r [<-|[<-|[<-|[]]]]; apply live_in_idle; cbn; auto.
Defined.

End Parameters.
